(** * Collaborative editor: the sync engine of server/socket/socketHandler.js,
      the Document model (server/models/Document.js) and the revert route
      (server/routes/documents.js), as a shallow embedding.

    Identifiers (Mongo ObjectIds, socket ids, room names) are strings, dates
    are milliseconds since the epoch (Z), the Document collection and the two
    module-level [Map]s are finite maps keyed by strings.  A handler is a
    computation in a state-and-exception monad over [World].  The model runs
    one handler at a time: the interleaving of handlers at their awaits is not
    part of it. *)

From stdpp Require Import gmap strings list sorting pretty.

Open Scope Z_scope.

(** ** Data model (server/models/Document.js) *)

Module Version.
(** versionSchema *)
Record t := mk {
  content : string;
  timestamp : Z;
  author : string;
  changeDescription : string
}.
End Version.

Module ActiveEditor.
Record t := mk {
  userId : string;
  username : string;
  cursorPosition : Z;
  selection : Z * Z;
  lastActive : Z
}.
End ActiveEditor.

(** documentSchema *)
Record Document := mkDocument {
  _id : string;
  title : string;
  content : string;
  owner : string;
  collaborators : list string;
  versions : list Version.t;
  currentVersion : Z;
  lastModified : Z;
  activeEditors : list ActiveEditor.t
}.

Definition set_content (c : string) (d : Document) : Document :=
  mkDocument (_id d) (title d) c (owner d) (collaborators d) (versions d)
             (currentVersion d) (lastModified d) (activeEditors d).

Definition set_versions (vs : list Version.t) (d : Document) : Document :=
  mkDocument (_id d) (title d) (content d) (owner d) (collaborators d) vs
             (currentVersion d) (lastModified d) (activeEditors d).

Definition set_currentVersion (n : Z) (d : Document) : Document :=
  mkDocument (_id d) (title d) (content d) (owner d) (collaborators d) (versions d)
             n (lastModified d) (activeEditors d).

Definition set_lastModified (t : Z) (d : Document) : Document :=
  mkDocument (_id d) (title d) (content d) (owner d) (collaborators d) (versions d)
             (currentVersion d) t (activeEditors d).

Definition set_activeEditors (es : list ActiveEditor.t) (d : Document) : Document :=
  mkDocument (_id d) (title d) (content d) (owner d) (collaborators d) (versions d)
             (currentVersion d) (lastModified d) es.

(** socket.user, as [authenticateSocket] fills it in; [id] is the user's
    [_id], written as its string. *)
Record User := mkUser { id : string; username : string; email : string }.

Record Socket := mkSocket { socket_id : string; user : User }.

(** The access test of the REST routes, [isOwner || isCollaborator], on the
    id string of the requester ([req.user.id]). *)
Definition isOwner (document : Document) (userId : string) : bool :=
  bool_decide (owner document = userId).

Definition isCollaborator (document : Document) (userId : string) : bool :=
  existsb (λ collab, bool_decide (collab = userId)) (collaborators document).

Definition hasAccess (document : Document) (userId : string) : bool :=
  isOwner document userId || isCollaborator document userId.

(** [s === objectId] in join-document: the left side is a string
    ([document.owner.toString()], [collab.toString()]), the right side is
    [socket.user.id], which authenticateSocket set to [user._id], an
    ObjectId.  Strict equality of a string and an object is false, whatever
    the two stand for. *)
Definition strictly_equals_ObjectId (s : string) (objectId : string) : bool := false.

(** Outcome of a computation: a value, or a thrown [Error(message)]. *)
Inductive Result (A : Type) : Type :=
| Ok (a : A)
| Throw (message : string).
Arguments Ok {A} a.
Arguments Throw {A} message.

Section Server.

(** The type of a diff-match-patch patch list, and [dmp.patch_apply]
    (npm package diff-match-patch): the patched text and one boolean per
    hunk. *)
Context {Patches : Type}.
Variable patch_apply : Patches → string → string * list bool.

(** An entry of the offline buffer, as save-offline-edit builds it. *)
Record OfflineEdit := mkOfflineEdit {
  oe_patches : Patches;
  oe_timestamp : Z;
  oe_userId : string;
  oe_username : string
}.

(** Server-to-client events with their payloads. *)
Inductive Event : Type :=
| error (message : string)
| document_data (document : Document) (activeEditors : list ActiveEditor.t)
| editor_joined (userId username : string) (activeEditors : list ActiveEditor.t)
| offline_edits_available (count : nat)
| sync_required (content : string) (serverShadowVersion : Z)
| document_change (patches : Patches) (userId username : string)
| version_created (versionIndex : Z) (userId username : string) (timestamp : Z)
| offline_edit_saved (success : bool)
| offline_edits_synced (success : bool) (count : nat)
| document_updated (content userId username : string).

(** The three ways the handlers address a message. *)
Inductive Target : Type :=
| ToSocket (sid : string)              (* socket.emit *)
| ToRoomExcept (room sid : string)     (* socket.to(room).emit *)
| ToRoom (room : string).              (* io.to(room).emit *)

Record World := mkWorld {
  db : gmap string Document;                       (* the Document collection *)
  documentShadows : gmap string string;            (* module-level Map *)
  offlineEdits : gmap string (list OfflineEdit);   (* module-level Map *)
  rooms : gmap string (gset string);               (* room name -> socket ids *)
  outbox : list (Target * Event);                  (* emitted so far, oldest first *)
  clock : nat → Z;                                 (* the k-th reading of the wall clock *)
  reads : nat;                                     (* clock readings taken so far *)
  save_fault : nat → option string;                (* does the k-th save() reject? *)
  saves : nat                                      (* save() calls made so far *)
}.

Definition with_db m (w : World) : World :=
  mkWorld m (documentShadows w) (offlineEdits w) (rooms w) (outbox w)
          (clock w) (reads w) (save_fault w) (saves w).
Definition with_documentShadows m (w : World) : World :=
  mkWorld (db w) m (offlineEdits w) (rooms w) (outbox w)
          (clock w) (reads w) (save_fault w) (saves w).
Definition with_offlineEdits m (w : World) : World :=
  mkWorld (db w) (documentShadows w) m (rooms w) (outbox w)
          (clock w) (reads w) (save_fault w) (saves w).
Definition with_rooms m (w : World) : World :=
  mkWorld (db w) (documentShadows w) (offlineEdits w) m (outbox w)
          (clock w) (reads w) (save_fault w) (saves w).
Definition with_outbox o (w : World) : World :=
  mkWorld (db w) (documentShadows w) (offlineEdits w) (rooms w) o
          (clock w) (reads w) (save_fault w) (saves w).
Definition with_reads n (w : World) : World :=
  mkWorld (db w) (documentShadows w) (offlineEdits w) (rooms w) (outbox w)
          (clock w) n (save_fault w) (saves w).
Definition with_saves n (w : World) : World :=
  mkWorld (db w) (documentShadows w) (offlineEdits w) (rooms w) (outbox w)
          (clock w) (reads w) (save_fault w) n.

(** ** The monad of handlers *)

Definition M (A : Type) : Type := World → Result A * World.

Definition ret {A} (a : A) : M A := λ w, (Ok a, w).

Definition bind {A B} (m : M A) (k : A → M B) : M B := λ w,
  match m w with
  | (Ok a, w') => k a w'
  | (Throw msg, w') => (Throw msg, w')
  end.

Definition throw {A} (msg : string) : M A := λ w, (Throw msg, w).

(** try { body } catch (error) { handler(error.message) } *)
Definition try_catch {A} (body : M A) (handler : string → M A) : M A := λ w,
  match body w with
  | (Ok a, w') => (Ok a, w')
  | (Throw msg, w') => handler msg w'
  end.

Notation "'let!' x ':=' m 'in' k" := (bind m (λ x, k))
  (at level 10, x name, m at level 100, k at level 200, only parsing).
Notation "m ';;;' k" := (bind m (λ _, k))
  (at level 100, k at level 200, right associativity, only parsing).

(** new Date() and Date.now() *)
Definition Date_now : M Z := λ w,
  (Ok (clock w (reads w)), with_reads (S (reads w)) w).

(** Document.findById(documentId), for an id that is well formed and written
    as the collection stores it: the cast of the argument to an ObjectId,
    which rejects a malformed id and accepts other spellings of one, is not
    part of the model. *)
Definition findById (documentId : string) : M (option Document) := λ w,
  (Ok (db w !! documentId), w).

(** document.save(): writes the object under its _id, or rejects. *)
Definition save (this : Document) : M Document := λ w,
  match save_fault w (saves w) with
  | Some msg => (Throw msg, with_saves (S (saves w)) w)
  | None => (Ok this, with_saves (S (saves w)) (with_db (<[_id this := this]> (db w)) w))
  end.

Definition emit (to : Target) (ev : Event) : M unit := λ w,
  (Ok tt, with_outbox (outbox w ++ [(to, ev)]) w).

Definition socket_emit (socket : Socket) (ev : Event) : M unit :=
  emit (ToSocket (socket_id socket)) ev.
Definition socket_to_emit (socket : Socket) (room : string) (ev : Event) : M unit :=
  emit (ToRoomExcept room (socket_id socket)) ev.
Definition io_to_emit (room : string) (ev : Event) : M unit :=
  emit (ToRoom room) ev.

(** The sockets an addressed message is delivered to. *)
Definition members (w : World) (room : string) : gset string :=
  default ∅ (rooms w !! room).

Definition recipients (w : World) (to : Target) : gset string :=
  match to with
  | ToSocket sid => {[ sid ]}
  | ToRoomExcept room sid => members w room ∖ {[ sid ]}
  | ToRoom room => members w room
  end.

(** ** Document methods *)

(** documentSchema.methods.addVersion; [changeDescription] defaults to
    'Document updated'. *)
Definition addVersion (this : Document) (content author : string)
    (changeDescription : option string) : M Document :=
  let! t := Date_now in
  let this := set_versions
    (versions this ++
      [Version.mk content t author (default "Document updated"%string changeDescription)])
    this in
  let this := set_currentVersion (Z.of_nat (length (versions this)) - 1) this in
  let this := set_content content this in
  let! t' := Date_now in
  let this := set_lastModified t' this in
  save this.

(** documentSchema.methods.revertToVersion *)
Definition revertToVersion (this : Document) (versionIndex : Z) (userId : string)
    : M Document :=
  if bool_decide (versionIndex >= 0) && bool_decide (versionIndex < Z.of_nat (length (versions this)))
  then
    match versions this !! Z.to_nat versionIndex with
    | Some v =>
        addVersion this (Version.content v) userId
          (Some ("Reverted to version " +:+ pretty (versionIndex + 1)))
    | None => throw "Cannot read properties of undefined (reading 'content')"
    end
  else throw "Invalid version index".

(** documentSchema.methods.updateActiveEditor *)
Fixpoint upsertEditor (e : ActiveEditor.t) (es : list ActiveEditor.t) : list ActiveEditor.t :=
  match es with
  | [] => [e]
  | x :: es' =>
      if bool_decide (ActiveEditor.userId x = ActiveEditor.userId e)
      then e :: es' else x :: upsertEditor e es'
  end.

Definition updateActiveEditor (this : Document) (userId username : string)
    (cursorPosition : Z) (selection : Z * Z) : M Document :=
  let! t := Date_now in
  let editorData := ActiveEditor.mk userId username cursorPosition selection t in
  save (set_activeEditors (upsertEditor editorData (activeEditors this)) this).

(** ** Helpers of socketHandler.js *)

Definition getDocumentShadow (documentId : string) : M string := λ w,
  match documentShadows w !! documentId with
  | Some shadow => (Ok shadow, w)
  | None =>
      match db w !! documentId with
      | None => (Throw "Document not found", w)
      | Some document =>
          (Ok (content document),
           with_documentShadows (<[documentId := content document]> (documentShadows w)) w)
      end
  end.

Definition updateDocumentShadow (documentId newContent : string) : M unit := λ w,
  (Ok tt, with_documentShadows (<[documentId := newContent]> (documentShadows w)) w).

(** applyPatch: [success] is [results.every(result => result)]. *)
Definition applyPatch (text : string) (patches : Patches) : string * bool :=
  let '(patchedText, results) := patch_apply patches text in
  (patchedText, forallb (λ result, result) results).

(** The key of the offline buffer: `${socket.user.id}-${documentId}` *)
Definition offlineKey (socket : Socket) (documentId : string) : string :=
  id (user socket) +:+ "-" +:+ documentId.

(** ** Socket handlers *)

(** socket.on('join-document', ...) *)
Definition join_document_body (socket : Socket) (documentId : string) : M unit :=
  let! found := findById documentId in
  match found with
  | None => socket_emit socket (error "Document not found")
  | Some document =>
      let isOwner := strictly_equals_ObjectId (owner document) (id (user socket)) in
      let isCollaborator :=
        existsb (λ collab, strictly_equals_ObjectId collab (id (user socket)))
                (collaborators document) in
      if negb isOwner && negb isCollaborator
      then socket_emit socket (error "Access denied")
      else
        (λ w, (Ok tt, with_rooms
                 (<[documentId := members w documentId ∪ {[ socket_id socket ]}]> (rooms w)) w)) ;;;
        let! document :=
          updateActiveEditor document (id (user socket)) (username (user socket)) 0 (0, 0) in
        getDocumentShadow documentId ;;;
        socket_emit socket (document_data document (activeEditors document)) ;;;
        socket_to_emit socket documentId
          (editor_joined (id (user socket)) (username (user socket)) (activeEditors document)) ;;;
        (λ w,
           match offlineEdits w !! offlineKey socket documentId with
           | Some (e :: es) =>
               socket_emit socket (offline_edits_available (length (e :: es))) w
           | _ => (Ok tt, w)
           end)
  end.

Definition on_join_document (socket : Socket) (documentId : string) (w : World) : World :=
  snd (try_catch (join_document_body socket documentId)
                 (λ msg, socket_emit socket (error msg)) w).

(** The snapshot test of document-change; Date.now() is read only when
    there is a last version. *)
Definition snapshotDue (document : Document) : M bool :=
  match last (versions document) with
  | None => ret true
  | Some v =>
      let! now := Date_now in
      ret (bool_decide (now - Version.timestamp v > 60000))
  end.

(** socket.on('document-change', ...) *)
Definition document_change_body (socket : Socket) (documentId : string)
    (patches : Patches) (clientShadowVersion : Z) : M unit :=
  let! found := findById documentId in
  match found with
  | None => socket_emit socket (error "Document not found")
  | Some document =>
      let! serverShadow := getDocumentShadow documentId in
      let '(newServerShadow, success) := applyPatch serverShadow patches in
      if negb success then
        socket_emit socket (sync_required (content document) (currentVersion document))
      else
        updateDocumentShadow documentId newServerShadow ;;;
        let document := set_content newServerShadow document in
        let! t := Date_now in
        let document := set_lastModified t document in
        let! document := save document in
        socket_to_emit socket documentId
          (document_change patches (id (user socket)) (username (user socket))) ;;;
        let! due := snapshotDue document in
        if due then
          let! document :=
            addVersion document newServerShadow (id (user socket))
                       (Some "Auto-saved version"%string) in
          let! t' := Date_now in
          io_to_emit documentId
            (version_created (currentVersion document) (id (user socket))
                             (username (user socket)) t')
        else ret tt
  end.

Definition on_document_change (socket : Socket) (documentId : string)
    (patches : Patches) (clientShadowVersion : Z) (w : World) : World :=
  snd (try_catch (document_change_body socket documentId patches clientShadowVersion)
                 (λ msg, socket_emit socket (error msg)) w).

(** socket.on('save-offline-edit', ...) *)
Definition on_save_offline_edit (socket : Socket) (documentId : string)
    (patches : Patches) (timestamp : Z) (w : World) : World :=
  let key := offlineKey socket documentId in
  let w :=
    if bool_decide (is_Some (offlineEdits w !! key)) then w
    else with_offlineEdits (<[key := []]> (offlineEdits w)) w in
  let w :=
    with_offlineEdits
      (alter (λ edits, edits ++
                [mkOfflineEdit patches timestamp (id (user socket)) (username (user socket))])
             key (offlineEdits w)) w in
  snd (socket_emit socket (offline_edit_saved true) w).

(** userOfflineEdits.sort((a, b) => a.timestamp - b.timestamp): ascending,
    and stable (elements with equal timestamps keep their order). *)
Fixpoint insert_by_timestamp (a : OfflineEdit) (sorted : list OfflineEdit)
    : list OfflineEdit :=
  match sorted with
  | [] => [a]
  | b :: rest =>
      if bool_decide (oe_timestamp a - oe_timestamp b ≤ 0)
      then a :: b :: rest
      else b :: insert_by_timestamp a rest
  end.

Definition sort_by_timestamp (edits : list OfflineEdit) : list OfflineEdit :=
  foldr insert_by_timestamp [] edits.

(** The for-of loop of sync-offline-edits over (serverShadow, appliedCount). *)
Fixpoint replay (edits : list OfflineEdit) (serverShadow : string) (appliedCount : nat)
    : string * nat :=
  match edits with
  | [] => (serverShadow, appliedCount)
  | edit :: rest =>
      let '(patchedText, success) := applyPatch serverShadow (oe_patches edit) in
      if success then replay rest patchedText (S appliedCount)
      else replay rest serverShadow appliedCount
  end.

(** The replay as the specification words it, on the results of the patch
    library: the bundles are tried in list order; a bundle is applied when
    every one of its hunks reports success, and then the patched text is the
    next shadow and the bundle counts; a bundle with a failed hunk is skipped
    and leaves the shadow as it was.  [ReplaysTo shadow edits final n] is
    compared with the loop [replay] in [replay_ReplaysTo]. *)
Inductive ReplaysTo : string → list OfflineEdit → string → nat → Prop :=
| replays_done shadow : ReplaysTo shadow [] shadow 0
| replays_applied shadow edit rest patched results final n :
    patch_apply (oe_patches edit) shadow = (patched, results) →
    Forall (λ hunk, hunk = true) results →
    ReplaysTo patched rest final n →
    ReplaysTo shadow (edit :: rest) final (S n)
| replays_skipped shadow edit rest patched results final n :
    patch_apply (oe_patches edit) shadow = (patched, results) →
    false ∈ results →
    ReplaysTo shadow rest final n →
    ReplaysTo shadow (edit :: rest) final n.

(** socket.on('sync-offline-edits', ...) *)
Definition sync_offline_edits_body (socket : Socket) (documentId : string) : M unit :=
  let key := offlineKey socket documentId in
  let! userOfflineEdits := (λ w, (Ok (default [] (offlineEdits w !! key)), w)) in
  if bool_decide (length userOfflineEdits = 0%nat) then
    socket_emit socket (offline_edits_synced true 0)
  else
    let! found := findById documentId in
    match found with
    | None => socket_emit socket (error "Document not found")
    | Some document =>
        let! serverShadow := getDocumentShadow documentId in
        (* the sort is in place, on the array the Map holds *)
        let userOfflineEdits := sort_by_timestamp userOfflineEdits in
        (λ w, (Ok tt, with_offlineEdits (<[key := userOfflineEdits]> (offlineEdits w)) w)) ;;;
        let '(serverShadow, appliedCount) := replay userOfflineEdits serverShadow 0 in
        (if bool_decide (0 < appliedCount)%nat then
           updateDocumentShadow documentId serverShadow ;;;
           let document := set_content serverShadow document in
           let! t := Date_now in
           let document := set_lastModified t document in
           let! document := save document in
           let! document :=
             addVersion document serverShadow (id (user socket))
               (Some ("Synced " +:+ pretty appliedCount +:+ " offline edits")) in
           io_to_emit documentId
             (document_updated serverShadow (id (user socket)) (username (user socket))) ;;;
           let! t' := Date_now in
           io_to_emit documentId
             (version_created (currentVersion document) (id (user socket))
                              (username (user socket)) t')
         else ret tt) ;;;
        (λ w, (Ok tt, with_offlineEdits (delete key (offlineEdits w)) w)) ;;;
        socket_emit socket (offline_edits_synced true appliedCount)
    end.

Definition on_sync_offline_edits (socket : Socket) (documentId : string) (w : World) : World :=
  snd (try_catch (sync_offline_edits_body socket documentId)
                 (λ msg, socket_emit socket (error msg)) w).

(** ** The revert route (POST /:id/revert/:versionIndex) *)

Inductive Body : Type :=
| json_message (message : string) (error : option string)
| json_document (document : Document).

Record Response := mkResponse { status : nat; body : Body }.

(** [versionIndex] is [parseInt(req.params.versionIndex)]; [None] is NaN. *)
Definition revert_route_body (req_params_id : string) (versionIndex : option Z)
    (req_user_id : string) : M Response :=
  let! found := findById req_params_id in
  match found with
  | None => ret (mkResponse 404 (json_message "Document not found" None))
  | Some document =>
      if negb (isOwner document req_user_id) && negb (isCollaborator document req_user_id)
      then ret (mkResponse 403 (json_message "Access denied" None))
      else
        match versionIndex with
        | None => ret (mkResponse 400 (json_message "Invalid version index" None))
        | Some versionIndex =>
            if bool_decide (versionIndex < 0)
               || bool_decide (versionIndex >= Z.of_nat (length (versions document)))
            then ret (mkResponse 400 (json_message "Invalid version index" None))
            else
              let! document := revertToVersion document versionIndex req_user_id in
              ret (mkResponse 200 (json_document document))
        end
  end.

Definition revert_route (req_params_id : string) (versionIndex : option Z)
    (req_user_id : string) : M Response :=
  try_catch (revert_route_body req_params_id versionIndex req_user_id)
    (λ msg, ret (mkResponse 500 (json_message "Server error" (Some msg)))).

End Server.

(** * The presence handlers, disconnection and the remaining routes *)

Definition set_title (t : string) (d : Document) : Document :=
  mkDocument (_id d) t (content d) (owner d) (collaborators d) (versions d)
             (currentVersion d) (lastModified d) (activeEditors d).

Definition set_collaborators (cs : list string) (d : Document) : Document :=
  mkDocument (_id d) (title d) (content d) (owner d) cs (versions d)
             (currentVersion d) (lastModified d) (activeEditors d).

(** The events of the presence handlers. *)
Inductive PresenceEvent : Type :=
| cursor_position (userId username : string) (cursorPosition : Z) (selection : Z * Z)
| editor_left (userId username : string) (activeEditors : list ActiveEditor.t).

(** The requests a connected socket can make, one per [socket.on]. *)
Inductive Request (Patches : Type) : Type :=
| JoinDocument (documentId : string)
| DocumentChange (documentId : string) (patches : Patches) (clientShadowVersion : Z)
| CursorPosition (documentId : string) (cursorPosition : Z) (selection : Z * Z)
| SaveOfflineEdit (documentId : string) (patches : Patches) (timestamp : Z)
| SyncOfflineEdits (documentId : string)
| LeaveDocument (documentId : string)
| Disconnect.
Arguments JoinDocument {Patches} documentId.
Arguments DocumentChange {Patches} documentId patches clientShadowVersion.
Arguments CursorPosition {Patches} documentId cursorPosition selection.
Arguments SaveOfflineEdit {Patches} documentId patches timestamp.
Arguments SyncOfflineEdits {Patches} documentId.
Arguments LeaveDocument {Patches} documentId.
Arguments Disconnect {Patches}.

Section Presence.

Context {Patches : Type}.
Variable patch_apply : Patches → string → string * list bool.

(** documentSchema.methods.removeActiveEditor *)
Definition removeActiveEditor (this : Document) (userId : string)
    : M (Patches := Patches) Document :=
  save (set_activeEditors
          (filter (λ editor, ActiveEditor.userId editor ≠ userId) (activeEditors this))
          this).

(** The server state together with the log of presence messages; the
    messages of [Event] stay in [outbox]. *)
Record Hub := mkHub {
  world : @World Patches;
  presence_outbox : list (Target * PresenceEvent)
}.

Definition MH (A : Type) : Type := Hub → Result A * Hub.

Definition retH {A} (a : A) : MH A := λ h, (Ok a, h).

Definition bindH {A B} (m : MH A) (k : A → MH B) : MH B := λ h,
  match m h with
  | (Ok a, h') => k a h'
  | (Throw msg, h') => (Throw msg, h')
  end.

Definition try_catchH {A} (body : MH A) (handler : string → MH A) : MH A := λ h,
  match body h with
  | (Ok a, h') => (Ok a, h')
  | (Throw msg, h') => handler msg h'
  end.

(** A computation on the server state, run inside a presence handler. *)
Definition lift {A} (m : M A) : MH A := λ h,
  match m (world h) with
  | (r, w') => (r, mkHub w' (presence_outbox h))
  end.

Definition presence_emit (to : Target) (ev : PresenceEvent) : MH unit := λ h,
  (Ok tt, mkHub (world h) (presence_outbox h ++ [(to, ev)])).

Notation "'let!' x ':=' m 'in' k" := (bindH m (λ x, k))
  (at level 10, x name, m at level 100, k at level 200, only parsing).
Notation "m ';;;' k" := (bindH m (λ _, k))
  (at level 100, k at level 200, right associativity, only parsing).

(** socket.on('cursor-position', ...) *)
Definition cursor_position_body (socket : Socket) (documentId : string)
    (cursorPosition : Z) (selection : Z * Z) : MH unit :=
  let! found := lift (findById documentId) in
  match found with
  | None => lift (socket_emit socket (error "Document not found"))
  | Some document =>
      lift (updateActiveEditor document (id (user socket)) (username (user socket))
              cursorPosition selection) ;;;
      presence_emit (ToRoomExcept documentId (socket_id socket))
        (cursor_position (id (user socket)) (username (user socket)) cursorPosition selection)
  end.

Definition on_cursor_position (socket : Socket) (documentId : string)
    (cursorPosition : Z) (selection : Z * Z) (h : Hub) : Hub :=
  snd (try_catchH (cursor_position_body socket documentId cursorPosition selection)
                  (λ msg, lift (socket_emit socket (error msg))) h).

(** socket.leave(room): the socket is taken out of the room, and a room left
    empty is dropped. *)
Definition socket_leave (socket : Socket) (room : string) : M (Patches := Patches) unit := λ w,
  let rest := members w room ∖ {[ socket_id socket ]} in
  (Ok tt,
   with_rooms (if bool_decide (rest = ∅) then delete room (rooms w)
               else <[room := rest]> (rooms w)) w).

(** socket.on('leave-document', ...) *)
Definition leave_document_body (socket : Socket) (documentId : string) : MH unit :=
  let! found := lift (findById documentId) in
  (match found with
   | Some document =>
       let! document := lift (removeActiveEditor document (id (user socket))) in
       presence_emit (ToRoomExcept documentId (socket_id socket))
         (editor_left (id (user socket)) (username (user socket)) (activeEditors document))
   | None => retH tt
   end) ;;;
  lift (socket_leave socket documentId).

Definition on_leave_document (socket : Socket) (documentId : string) (h : Hub) : Hub :=
  snd (try_catchH (leave_document_body socket documentId)
                  (λ msg, lift (socket_emit socket (error msg))) h).

(** Document.find({ 'activeEditors.userId': userId }): the documents that list
    the user among their active editors, in the order the collection is
    enumerated. *)
Definition find_by_activeEditor (userId : string) : M (Patches := Patches) (list Document) := λ w,
  (Ok (filter (λ document, userId ∈ ActiveEditor.userId <$> activeEditors document)
              ((map_to_list (db w)).*2)), w).

(** The for-of loop of the disconnect handler. *)
Fixpoint remove_from_each (socket : Socket) (documents : list Document) : MH unit :=
  match documents with
  | [] => retH tt
  | document :: rest =>
      let! document := lift (removeActiveEditor document (id (user socket))) in
      presence_emit (ToRoomExcept (_id document) (socket_id socket))
        (editor_left (id (user socket)) (username (user socket)) (activeEditors document)) ;;;
      remove_from_each socket rest
  end.

(** socket.on('disconnect', ...); the catch only logs to the console. *)
Definition on_disconnect (socket : Socket) (h : Hub) : Hub :=
  snd (try_catchH
         (let! documents := lift (find_by_activeEditor (id (user socket))) in
          remove_from_each socket documents)
         (λ _, retH tt) h).

(** The dispatch of a request to its handler. *)
Definition handle (socket : Socket) (request : Request Patches) (h : Hub) : Hub :=
  match request with
  | JoinDocument documentId =>
      mkHub (on_join_document socket documentId (world h)) (presence_outbox h)
  | DocumentChange documentId patches clientShadowVersion =>
      mkHub (on_document_change patch_apply socket documentId patches clientShadowVersion
               (world h))
            (presence_outbox h)
  | CursorPosition documentId cursorPosition selection =>
      on_cursor_position socket documentId cursorPosition selection h
  | SaveOfflineEdit documentId patches timestamp =>
      mkHub (on_save_offline_edit socket documentId patches timestamp (world h))
            (presence_outbox h)
  | SyncOfflineEdits documentId =>
      mkHub (on_sync_offline_edits patch_apply socket documentId (world h)) (presence_outbox h)
  | LeaveDocument documentId => on_leave_document socket documentId h
  | Disconnect => on_disconnect socket h
  end.

(** Requests handled one after the other. *)
Definition handle_all (requests : list (Socket * Request Patches)) (h : Hub) : Hub :=
  foldl (λ h request, handle request.1 request.2 h) h requests.

End Presence.

Section Routes.

Context {Patches : Type}.

(** String.prototype.trim, which the schema applies to a title when it is
    set ([trim: true]). *)
Variable trim : string → string.

(** document.remove(): a write like save(), rejected when the oracle of
    writes says so. *)
Definition remove (this : Document) : M (Patches := Patches) unit := λ w,
  match save_fault w (saves w) with
  | Some msg => (Throw msg, with_saves (S (saves w)) w)
  | None => (Ok tt, with_saves (S (saves w)) (with_db (delete (_id this) (db w)) w))
  end.

(** [a || b] on optional strings: the empty string is falsy. *)
Definition or_else (a : option string) (b : string) : string :=
  match a with
  | Some s => if bool_decide (s = ""%string) then b else s
  | None => b
  end.

(** PUT /:id *)
Definition update_route_body (req_params_id : string)
    (req_body_title req_body_content req_body_changeDescription : option string)
    (req_user_id : string) : M (Patches := Patches) Response :=
  bind (findById req_params_id) (λ found,
  match found with
  | None => ret (mkResponse 404 (json_message "Document not found" None))
  | Some document =>
      if negb (isOwner document req_user_id) && negb (isCollaborator document req_user_id)
      then ret (mkResponse 403 (json_message "Access denied" None))
      else
        let document :=
          match req_body_title with
          | Some t => if bool_decide (t = ""%string) then document
                      else set_title (trim t) document
          | None => document
          end in
        bind
          (match req_body_content with
           | Some c =>
               if bool_decide (c ≠ content document)
               then addVersion document c req_user_id
                      (Some (or_else req_body_changeDescription "Document updated"))
               else bind Date_now (λ t, save (set_lastModified t document))
           | None => bind Date_now (λ t, save (set_lastModified t document))
           end)
          (λ document, ret (mkResponse 200 (json_document document)))
  end).

Definition update_route (req_params_id : string)
    (req_body_title req_body_content req_body_changeDescription : option string)
    (req_user_id : string) : M (Patches := Patches) Response :=
  try_catch (update_route_body req_params_id req_body_title req_body_content
               req_body_changeDescription req_user_id)
    (λ msg, ret (mkResponse 500 (json_message "Server error" (Some msg)))).

(** POST /:id/collaborators; [users] is the User collection, which
    User.findOne({ email }) searches. *)
Definition add_collaborator_route_body (users : list User) (req_params_id : string)
    (req_body_email : string) (req_user_id : string) : M (Patches := Patches) Response :=
  bind (findById req_params_id) (λ found,
  match found with
  | None => ret (mkResponse 404 (json_message "Document not found" None))
  | Some document =>
      if negb (bool_decide (owner document = req_user_id))
      then ret (mkResponse 403 (json_message "Only the owner can add collaborators" None))
      else
        match List.find (λ u, bool_decide (email u = req_body_email)) users with
        | None => ret (mkResponse 404 (json_message "User not found" None))
        | Some collaborator =>
            if bool_decide (id collaborator ∈ collaborators document)
            then ret (mkResponse 400 (json_message "User is already a collaborator" None))
            else
              bind (save (set_collaborators (collaborators document ++ [id collaborator])
                            document))
                   (λ document, ret (mkResponse 200 (json_document document)))
        end
  end).

Definition add_collaborator_route (users : list User) (req_params_id : string)
    (req_body_email : string) (req_user_id : string) : M (Patches := Patches) Response :=
  try_catch (add_collaborator_route_body users req_params_id req_body_email req_user_id)
    (λ msg, ret (mkResponse 500 (json_message "Server error" (Some msg)))).

(** DELETE /:id/collaborators/:userId *)
Definition remove_collaborator_route_body (req_params_id req_params_userId : string)
    (req_user_id : string) : M (Patches := Patches) Response :=
  bind (findById req_params_id) (λ found,
  match found with
  | None => ret (mkResponse 404 (json_message "Document not found" None))
  | Some document =>
      if negb (bool_decide (owner document = req_user_id))
         && negb (bool_decide (req_params_userId = req_user_id))
      then ret (mkResponse 403
                  (json_message
                     "Only the owner can remove collaborators or you can remove yourself"
                     None))
      else
        bind (save (set_collaborators
                      (filter (λ collab, collab ≠ req_params_userId) (collaborators document))
                      document))
             (λ document, ret (mkResponse 200 (json_document document)))
  end).

Definition remove_collaborator_route (req_params_id req_params_userId : string)
    (req_user_id : string) : M (Patches := Patches) Response :=
  try_catch (remove_collaborator_route_body req_params_id req_params_userId req_user_id)
    (λ msg, ret (mkResponse 500 (json_message "Server error" (Some msg)))).

(** DELETE /:id *)
Definition delete_route_body (req_params_id : string) (req_user_id : string)
    : M (Patches := Patches) Response :=
  bind (findById req_params_id) (λ found,
  match found with
  | None => ret (mkResponse 404 (json_message "Document not found" None))
  | Some document =>
      if negb (bool_decide (owner document = req_user_id))
      then ret (mkResponse 403 (json_message "Only the owner can delete the document" None))
      else
        bind (remove document)
             (λ _, ret (mkResponse 200 (json_message "Document deleted" None)))
  end).

Definition delete_route (req_params_id : string) (req_user_id : string)
    : M (Patches := Patches) Response :=
  try_catch (delete_route_body req_params_id req_user_id)
    (λ msg, ret (mkResponse 500 (json_message "Server error" (Some msg)))).

End Routes.

(** ** Invariants of the collection and of the shadow cache *)

(** Every document is stored under its own id. *)
Definition keyed_by_id (m : gmap string Document) : Prop :=
  ∀ k d, m !! k = Some d → _id d = k.

(** [currentVersion] points at the last version, when there is one. *)
Definition pointer_ok (d : Document) : Prop :=
  versions d ≠ [] → currentVersion d = Z.of_nat (length (versions d)) - 1.

(** [d'] is a later state of the document [d]: same id, title, owner and
    collaborators, and the versions of [d] followed by zero or more new
    ones. *)
Definition later_state (d d' : Document) : Prop :=
  _id d' = _id d ∧ title d' = title d ∧ owner d' = owner d ∧
  collaborators d' = collaborators d ∧
  versions d `prefix_of` versions d' ∧
  (pointer_ok d → pointer_ok d').

(** [m'] holds a later state of every document of [m], and no other
    document. *)
Definition history_kept (m m' : gmap string Document) : Prop :=
  ∀ k, match m !! k with
       | Some d => ∃ d', m' !! k = Some d' ∧ later_state d d'
       | None => m' !! k = None
       end.

(** ** A concrete setting for the examples *)

(** A stand-in for the patch library: a hunk [(old, new)] applies exactly
    when the text is [old], and then replaces it by [new]. *)
Definition exact_patch_apply (patches : list (string * string)) (text : string)
    : string * list bool :=
  foldl (λ acc hunk,
           if bool_decide (acc.1 = hunk.1) then (hunk.2, acc.2 ++ [true])
           else (acc.1, acc.2 ++ [false]))
        (text, []) patches.

Definition alice : Socket := mkSocket "sA" (mkUser "u-alice" "alice" "alice@example.org").
Definition mallory : Socket := mkSocket "sM" (mkUser "u-mallory" "mallory" "m@example.org").

Definition version_of (content : string) (timestamp : Z) : Version.t :=
  Version.mk content timestamp "u-alice" "Document updated".

(** Scenario S6: versions "a", "ab", "abc" and current content "abcX". *)
Definition doc1 : Document :=
  mkDocument "d1" "Notes" "abcX" "u-alice" ["u-bob"]
    [version_of "a" 1000; version_of "ab" 2000; version_of "abc" 3000] 2 4000 [].

Definition world_at (now : Z) (fault : nat → option string) (shadows : gmap string string)
    (buffers : gmap string (list (@OfflineEdit (list (string * string)))))
    : @World (list (string * string)) :=
  mkWorld {[ "d1" := doc1 ]} shadows buffers {[ "d1" := {[ "sA"; "sB" ]} ]} []
          (λ _, now) 0 fault 0.

Definition no_fault : nat → option string := λ _, None.
Definition first_save_fails : nat → option string :=
  λ k, match k with O => Some "write failed"%string | _ => None end.

Definition offline_bundles : list (@OfflineEdit (list (string * string))) :=
  [ mkOfflineEdit [("abcX1", "abcX12")] 200 "u-alice" "alice";
    mkOfflineEdit [("nowhere", "lost")] 250 "u-alice" "alice";
    mkOfflineEdit [("abcX12", "abcX123")] 300 "u-alice" "alice";
    mkOfflineEdit [("abcX", "abcX1")] 100 "u-alice" "alice" ].

Definition edit_patch : list (string * string) := [("abcX", "abcXY")].
Definition stale_patch : list (string * string) := [("one two", "one two four")].

(** The shadow of d1 is cached and equal to the content; the clock reads
    63000 ms, exactly 60000 ms after the last version of [doc1]. *)
Definition world_cached : @World (list (string * string)) :=
  world_at 63000 no_fault {[ "d1" := "abcX"%string ]} ∅.

Definition world_61s : @World (list (string * string)) :=
  world_at 63001 no_fault {[ "d1" := "abcX"%string ]} ∅.

Definition world_save_fails : @World (list (string * string)) :=
  world_at 63000 first_save_fails {[ "d1" := "abcX"%string ]} ∅.

Definition world_buffered : @World (list (string * string)) :=
  world_at 63000 no_fault ∅ {[ offlineKey alice "d1" := offline_bundles ]}.

(** A well-formed document id that no document of the collection has. *)
Definition lost_id : string := "64b7f3a2c9e1d4f5a6b7c8d9".

(** A buffer for a document that is not in the collection. *)
Definition world_orphan_buffer : @World (list (string * string)) :=
  world_at 63000 no_fault ∅ {[ offlineKey alice lost_id := offline_bundles ]}.

(** Two users are at work in d1. *)
Definition roster : list ActiveEditor.t :=
  [ ActiveEditor.mk "u-alice" "alice" 3 (3, 3) 5000;
    ActiveEditor.mk "u-bob" "bob" 7 (7, 9) 5500 ].

Definition doc_live : Document := set_activeEditors roster doc1.

Definition hub_live : @Hub (list (string * string)) :=
  mkHub (mkWorld {[ "d1" := doc_live ]} {[ "d1" := "abcX"%string ]} ∅
                 {[ "d1" := {[ "sA"; "sB" ]} ]} [] (λ _, 63000) 0 no_fault 0)
        [].

Definition hub_buffered : @Hub (list (string * string)) := mkHub world_buffered [].

(** The User collection. *)
Definition registered : list User :=
  [ mkUser "u-alice" "alice" "alice@example.org";
    mkUser "u-bob" "bob" "bob@example.org";
    mkUser "u-carol" "carol" "carol@example.org" ].

(** A title without blanks around it is its own trim. *)
Definition plain_trim : string → string := λ s, s.

Definition busy_morning : list (Socket * Request (list (string * string))) :=
  [ (alice, JoinDocument "d1");
    (alice, DocumentChange "d1" edit_patch 0);
    (mallory, CursorPosition "d1" 4 (4, 4));
    (alice, SaveOfflineEdit "d1" [("abcXY", "abcXYZ")] 70000);
    (alice, SyncOfflineEdits "d1");
    (alice, LeaveDocument "d1");
    (mallory, Disconnect) ].

(** * Properties *)

Section Properties.

Context {Patches : Type}.
Variable patch_apply : Patches → string → string * list bool.

Implicit Types (w : @World Patches) (this document : Document) (socket : Socket).

Ltac run :=
  unfold socket_emit, socket_to_emit, io_to_emit, emit, findById,
         updateDocumentShadow, Date_now, save, bind, ret, throw, try_catch;
  cbn [negb fst snd db documentShadows offlineEdits rooms outbox clock reads save_fault saves
       with_db with_documentShadows with_offlineEdits with_rooms with_outbox
       with_reads with_saves].

Ltac run_in H :=
  unfold socket_emit, socket_to_emit, io_to_emit, emit, findById,
         updateDocumentShadow, Date_now, save, bind, ret, throw, try_catch in H;
  cbn [negb fst snd db documentShadows offlineEdits rooms outbox clock reads save_fault saves
       with_db with_documentShadows with_offlineEdits with_rooms with_outbox
       with_reads with_saves] in H.

(** Name the world a handler produces, keeping its defining equation. *)
Ltac name_world w' Hw' :=
  cbv zeta;
  match goal with
  | |- context [on_document_change ?p ?s ?d ?x ?c ?w] =>
      remember (on_document_change p s d x c w) as w' eqn:Hw'
  | |- context [on_sync_offline_edits ?p ?s ?d ?w] =>
      remember (on_sync_offline_edits p s d w) as w' eqn:Hw'
  end.

(** ** The model methods *)

(** The object [addVersion] leaves in memory, given the two clock readings. *)
Lemma addVersion_run this c a desc w :
  addVersion this c a desc w =
  save (set_lastModified (clock w (S (reads w)))
          (set_content c
             (set_currentVersion (Z.of_nat (length (versions this ++
                  [Version.mk c (clock w (reads w)) a (default "Document updated"%string desc)])) - 1)
                (set_versions (versions this ++
                  [Version.mk c (clock w (reads w)) a (default "Document updated"%string desc)])
                   this))))
       (with_reads (S (S (reads w))) w).
Proof. reflexivity. Qed.

Lemma addVersion_frame this c a desc w :
  documentShadows (addVersion this c a desc w).2 = documentShadows w ∧
  offlineEdits (addVersion this c a desc w).2 = offlineEdits w ∧
  rooms (addVersion this c a desc w).2 = rooms w ∧
  outbox (addVersion this c a desc w).2 = outbox w.
Proof.
  rewrite addVersion_run. run. by destruct (save_fault w (saves w)).
Qed.

Lemma addVersion_object this c a desc w :
  ∃ this',
    versions this' =
      versions this ++
        [Version.mk c (clock w (reads w)) a (default "Document updated"%string desc)] ∧
    currentVersion this' = Z.of_nat (length (versions this')) - 1 ∧
    content this' = c ∧
    lastModified this' = clock w (S (reads w)) ∧
    _id this' = _id this ∧ title this' = title this ∧ owner this' = owner this ∧
    collaborators this' = collaborators this ∧
    activeEditors this' = activeEditors this ∧
    addVersion this c a desc w =
      match save_fault w (saves w) with
      | None =>
          (Ok this',
           with_saves (S (saves w))
             (with_db (<[_id this := this']> (db w)) (with_reads (S (S (reads w))) w)))
      | Some msg =>
          (Throw msg, with_saves (S (saves w)) (with_reads (S (S (reads w))) w))
      end.
Proof.
  rewrite addVersion_run.
  match goal with |- context [save ?d _] => exists d end.
  split_and!; try reflexivity.
Qed.

(** C6. [addVersion] builds one object [this']: its versions are the
    previous versions, unchanged and in their order, followed by exactly one
    new entry, which holds the given content and author, the first clock
    reading and the description (or 'Document updated'); [currentVersion] is
    the index of that entry ([length versions - 1]); [content] is the
    entry's content; [lastModified] is the second clock reading; the other
    fields are those of the receiver.  The call then saves: when the save
    resolves it returns [this'] and the collection holds it under the
    document's id, when the save rejects with [msg] it throws [msg] and the
    collection is as before.  Both ways two clock readings and one save are
    used up, and nothing else changes. *)
Theorem addVersion_appends_one this c a desc w :
  ∃ v this',
    v = Version.mk c (clock w (reads w)) a (default "Document updated"%string desc) ∧
    versions this' = versions this ++ [v] ∧
    currentVersion this' = Z.of_nat (length (versions this')) - 1 ∧
    content this' = Version.content v ∧
    lastModified this' = clock w (S (reads w)) ∧
    _id this' = _id this ∧ title this' = title this ∧ owner this' = owner this ∧
    collaborators this' = collaborators this ∧
    activeEditors this' = activeEditors this ∧
    addVersion this c a desc w =
      match save_fault w (saves w) with
      | None =>
          (Ok this',
           with_saves (S (saves w))
             (with_db (<[_id this := this']> (db w)) (with_reads (S (S (reads w))) w)))
      | Some msg =>
          (Throw msg, with_saves (S (saves w)) (with_reads (S (S (reads w))) w))
      end.
Proof.
  destruct (addVersion_object this c a desc w)
    as (this' & Hvs & Hcv & Hcontent & Hlm & Hid & Htitle & Howner & Hcollab & Hae & Hrun).
  eexists _, this'. split; [reflexivity|]. by split_and!.
Qed.

(** ** document-change *)

(** Loading the shadow of an existing document yields the cached text, or
    the persisted content when nothing is cached, and leaves that text in
    the cache. *)
Lemma getDocumentShadow_found documentId document w :
  db w !! documentId = Some document →
  getDocumentShadow documentId w =
  (Ok (default (content document) (documentShadows w !! documentId)),
   with_documentShadows
     (<[documentId := default (content document) (documentShadows w !! documentId)]>
        (documentShadows w)) w).
Proof.
  intros Hdb. unfold getDocumentShadow.
  destruct (documentShadows w !! documentId) as [shadow|] eqn:Hs; cbn.
  - rewrite insert_id by done. by destruct w.
  - by rewrite Hdb.
Qed.

Lemma applyPatch_failure text patches :
  false ∈ (patch_apply patches text).2 → (applyPatch patch_apply text patches).2 = false.
Proof.
  unfold applyPatch. destruct (patch_apply patches text) as [patched results]. cbn.
  intros Hin. apply not_true_is_false. intros Hall.
  rewrite forallb_forall in Hall. apply list_elem_of_In in Hin.
  by specialize (Hall _ Hin).
Qed.

(** C1. When some hunk of the bundle fails against the server shadow, the
    handler sends sync-required with the persisted content to the sender's
    socket and nothing else; the collection (content and versions) is as
    before, and the shadow the patch was tried against is still the shadow:
    a cached entry is untouched, a missing one now holds the content it was
    loaded from. *)
Theorem document_change_patch_failure socket documentId patches csv w document :
  db w !! documentId = Some document →
  false ∈ (patch_apply patches
             (default (content document) (documentShadows w !! documentId))).2 →
  let w' := on_document_change patch_apply socket documentId patches csv w in
  outbox w' = outbox w ++
    [(ToSocket (socket_id socket),
      sync_required (content document) (currentVersion document))] ∧
  recipients w' (ToSocket (socket_id socket)) = {[ socket_id socket ]} ∧
  db w' = db w ∧
  documentShadows w' !! documentId =
    Some (default (content document) (documentShadows w !! documentId)) ∧
  (∀ other, other ≠ documentId →
     documentShadows w' !! other = documentShadows w !! other) ∧
  (is_Some (documentShadows w !! documentId) → documentShadows w' = documentShadows w) ∧
  offlineEdits w' = offlineEdits w ∧ saves w' = saves w.
Proof.
  intros Hdb Hfail. name_world w' Hw'.
  apply applyPatch_failure in Hfail.
  unfold on_document_change, document_change_body in Hw'.
  unfold try_catch, bind at 1, findById in Hw'. rewrite Hdb in Hw'.
  unfold bind at 1 in Hw'. rewrite (getDocumentShadow_found _ _ _ Hdb) in Hw'.
  destruct (applyPatch patch_apply _ patches) as [newServerShadow success].
  cbn in Hfail. subst success. run_in Hw'. subst w'. run.
  split_and!; try done.
  - by rewrite lookup_insert_eq.
  - intros other Hne. by rewrite lookup_insert_ne.
  - intros [shadow Hs]. rewrite Hs. cbn. by rewrite insert_id.
Qed.

(** C4 (amended). When the first save of a document-change rejects, after
    the patch applied, the handler sends the error to the sender's socket
    and nothing else, and nothing is written to the collection; the shadow
    is not restored: it holds the patched text. *)
Theorem document_change_persist_failure socket documentId patches csv w document
    newShadow msg :
  db w !! documentId = Some document →
  applyPatch patch_apply (default (content document) (documentShadows w !! documentId))
             patches = (newShadow, true) →
  save_fault w (saves w) = Some msg →
  let w' := on_document_change patch_apply socket documentId patches csv w in
  outbox w' = outbox w ++ [(ToSocket (socket_id socket), error msg)] ∧
  recipients w' (ToSocket (socket_id socket)) = {[ socket_id socket ]} ∧
  db w' = db w ∧
  documentShadows w' !! documentId = Some newShadow.
Proof.
  intros Hdb Happly Hfault. name_world w' Hw'.
  unfold on_document_change, document_change_body in Hw'.
  unfold try_catch, bind at 1, findById in Hw'. rewrite Hdb in Hw'.
  unfold bind at 1 in Hw'. rewrite (getDocumentShadow_found _ _ _ Hdb) in Hw'.
  rewrite Happly in Hw'. run_in Hw'. rewrite Hfault in Hw'. run_in Hw'.
  subst w'. run.
  split_and!; try done.
  by rewrite lookup_insert_eq.
Qed.

(** C3 (amended). In a document-change whose patch applies and whose saves
    resolve, a version is appended exactly when [versions] is empty or
    Date.now() minus the timestamp of the last version is strictly greater
    than 60000 ms.  The appended version has the new shadow as content, the
    sender as author and the description "Auto-saved version", and
    version-created goes to every socket of the room.  Otherwise the
    versions are as before and only the patch is relayed. *)
Theorem document_change_snapshot socket documentId patches csv w document newShadow :
  db w !! documentId = Some document →
  _id document = documentId →
  applyPatch patch_apply (default (content document) (documentShadows w !! documentId))
             patches = (newShadow, true) →
  save_fault w (saves w) = None →
  save_fault w (S (saves w)) = None →
  let w' := on_document_change patch_apply socket documentId patches csv w in
  let relayed :=
    (ToRoomExcept documentId (socket_id socket),
     document_change patches (id (user socket)) (username (user socket))) in
  let due :=
    versions document = [] ∨
    ∃ last_version, last (versions document) = Some last_version ∧
      clock w (S (reads w)) - Version.timestamp last_version > 60000 in
  ∃ document',
    db w' !! documentId = Some document' ∧
    content document' = newShadow ∧
    documentShadows w' !! documentId = Some newShadow ∧
    ((due ∧ ∃ v t,
        versions document' = versions document ++ [v] ∧
        Version.content v = newShadow ∧
        Version.author v = id (user socket) ∧
        Version.changeDescription v = "Auto-saved version"%string ∧
        outbox w' = outbox w ++
          [relayed;
           (ToRoom documentId,
            version_created (currentVersion document') (id (user socket))
                            (username (user socket)) t)] ∧
        recipients w' (ToRoom documentId) = members w' documentId)
     ∨
     (¬ due ∧ versions document' = versions document ∧
      outbox w' = outbox w ++ [relayed])).
Proof.
  intros Hdb Hid Happly Hsave1 Hsave2. name_world w' Hw'.
  unfold on_document_change, document_change_body in Hw'.
  unfold try_catch, bind at 1, findById in Hw'. rewrite Hdb in Hw'.
  unfold bind at 1 in Hw'. rewrite (getDocumentShadow_found _ _ _ Hdb) in Hw'.
  rewrite Happly in Hw'. run_in Hw'. rewrite Hsave1 in Hw'. run_in Hw'.
  unfold snapshotDue in Hw'. cbn [versions set_lastModified set_content] in Hw'.
  destruct (last (versions document)) as [lv|] eqn:Hlast.
  - run_in Hw'. case_bool_decide as Hgt.
    + rewrite addVersion_run in Hw'. run_in Hw'. rewrite Hsave2 in Hw'. run_in Hw'.
      subst w'. run.
      eexists. split_and!.
      * cbn [_id set_lastModified set_content set_currentVersion set_versions].
        rewrite Hid. apply lookup_insert_eq.
      * reflexivity.
      * by rewrite lookup_insert_eq.
      * left. split; [right; eauto|].
        eexists _, _. split_and!; try reflexivity.
        by rewrite <- app_assoc.
    + subst w'. run.
      eexists. split_and!.
      * cbn [_id set_lastModified set_content]. rewrite Hid. apply lookup_insert_eq.
      * reflexivity.
      * by rewrite lookup_insert_eq.
      * right. split_and!; try reflexivity.
        intros [Hnil | (lv' & Hlv' & Hgt')].
        -- by rewrite Hnil in Hlast.
        -- congruence.
  - apply last_None in Hlast.
    run_in Hw'. rewrite addVersion_run in Hw'. run_in Hw'. rewrite Hsave2 in Hw'.
    run_in Hw'. subst w'. run.
    eexists. split_and!.
    * cbn [_id set_lastModified set_content set_currentVersion set_versions].
      rewrite Hid. apply lookup_insert_eq.
    * reflexivity.
    * by rewrite lookup_insert_eq.
    * left. split; [by left|].
      eexists _, _. split_and!; try reflexivity.
      by rewrite <- app_assoc.
Qed.

(** ** Reverting *)

Lemma revertToVersion_valid this versionIndex userId :
  0 ≤ versionIndex < Z.of_nat (length (versions this)) →
  ∃ target,
    versions this !! Z.to_nat versionIndex = Some target ∧
    revertToVersion (Patches := Patches) this versionIndex userId =
      addVersion this (Version.content target) userId
        (Some ("Reverted to version " +:+ pretty (versionIndex + 1))).
Proof.
  intros [Hlo Hhi]. unfold revertToVersion.
  rewrite !bool_decide_eq_true_2 by lia. cbn [andb].
  destruct (lookup_lt_is_Some_2 (versions this) (Z.to_nat versionIndex)) as [target Ht];
    [lia|].
  exists target. by rewrite Ht.
Qed.

Lemma revertToVersion_invalid this versionIndex userId w :
  ¬ (0 ≤ versionIndex < Z.of_nat (length (versions this))) →
  revertToVersion this versionIndex userId w = (Throw "Invalid version index", w).
Proof.
  intros Hout. unfold revertToVersion.
  destruct (decide (versionIndex >= 0)) as [Hge|Hlt].
  - rewrite (bool_decide_eq_false_2 (versionIndex < _)) by lia.
    by rewrite andb_false_r.
  - by rewrite (bool_decide_eq_false_2 (versionIndex >= 0)) by done.
Qed.

(** C7 (amended). Reverting to a version index [i] inside the list builds
    one object [this']: its versions are the previous versions followed by
    one new entry with the content of version [i], the user as author and
    the description "Reverted to version i+1"; [content] is the content of
    version [i] and [currentVersion] the index of the new entry.  When the
    save resolves the call returns [this'] and the collection holds it; when
    the save rejects with [msg] the call throws [msg] and the collection is
    as before.  The in-memory shadow map is not touched either way.  An
    index outside the list throws 'Invalid version index' and changes
    nothing. *)
Theorem revertToVersion_appends this versionIndex userId w :
  (0 ≤ versionIndex < Z.of_nat (length (versions this)) →
   ∃ target v this',
     versions this !! Z.to_nat versionIndex = Some target ∧
     v = Version.mk (Version.content target) (clock w (reads w)) userId
                    ("Reverted to version " +:+ pretty (versionIndex + 1)) ∧
     versions this' = versions this ++ [v] ∧
     currentVersion this' = Z.of_nat (length (versions this')) - 1 ∧
     content this' = Version.content target ∧
     lastModified this' = clock w (S (reads w)) ∧
     _id this' = _id this ∧ title this' = title this ∧ owner this' = owner this ∧
     collaborators this' = collaborators this ∧
     activeEditors this' = activeEditors this ∧
     documentShadows (revertToVersion this versionIndex userId w).2 = documentShadows w ∧
     revertToVersion this versionIndex userId w =
       match save_fault w (saves w) with
       | None =>
           (Ok this',
            with_saves (S (saves w))
              (with_db (<[_id this := this']> (db w)) (with_reads (S (S (reads w))) w)))
       | Some msg =>
           (Throw msg, with_saves (S (saves w)) (with_reads (S (S (reads w))) w))
       end) ∧
  (¬ (0 ≤ versionIndex < Z.of_nat (length (versions this))) →
   revertToVersion this versionIndex userId w = (Throw "Invalid version index", w)).
Proof.
  split; [|apply revertToVersion_invalid].
  intros Hvalid.
  destruct (revertToVersion_valid this versionIndex userId Hvalid) as (target & Ht & ->).
  destruct (addVersion_object this (Version.content target) userId
              (Some ("Reverted to version " +:+ pretty (versionIndex + 1))) w)
    as (this' & Hvs & Hcv & Hcontent & Hlm & Hid & Htitle & Howner & Hcollab & Hae & Hrun).
  eexists target, _, this'. split; [exact Ht|]. split; [reflexivity|].
  split_and!; try done.
  apply addVersion_frame.
Qed.

(** C8. Reverting to a valid index gives a document whose content is that
    version's content; reverting the result to the same index again gives
    the same content and one more version entry. *)
Theorem revert_twice_same_content this versionIndex userId w :
  0 ≤ versionIndex < Z.of_nat (length (versions this)) →
  save_fault w (saves w) = None →
  save_fault w (S (saves w)) = None →
  ∃ target d1 w1 d2 w2 v,
    versions this !! Z.to_nat versionIndex = Some target ∧
    revertToVersion this versionIndex userId w = (Ok d1, w1) ∧
    content d1 = Version.content target ∧
    revertToVersion d1 versionIndex userId w1 = (Ok d2, w2) ∧
    content d2 = content d1 ∧
    versions d2 = versions d1 ++ [v] ∧
    length (versions d2) = S (S (length (versions this))) ∧
    db w2 !! _id this = Some d2.
Proof.
  intros Hvalid Hs1 Hs2.
  destruct (revertToVersion_valid this versionIndex userId Hvalid) as (target & Ht & Hr1).
  destruct (revertToVersion this versionIndex userId w) as [r1 w1] eqn:Hrun1.
  rewrite Hr1, addVersion_run in Hrun1. unfold save in Hrun1. run_in Hrun1.
  rewrite Hs1 in Hrun1.
  match type of Hrun1 with (Ok ?d, _) = _ => set (d1 := d) in * end.
  injection Hrun1 as <- <-.
  assert (Hvalid1 : 0 ≤ versionIndex < Z.of_nat (length (versions d1))).
  { subst d1. cbn. rewrite length_app. lia. }
  destruct (revertToVersion_valid d1 versionIndex userId Hvalid1) as (target1 & Ht1 & Hr2).
  assert (target1 = target) as ->.
  { subst d1. cbn in Ht1. rewrite lookup_app_l in Ht1 by lia. congruence. }
  eexists target, d1, _, _, _, _. split_and!.
  - exact Ht.
  - reflexivity.
  - reflexivity.
  - rewrite Hr2, addVersion_run. unfold save. run. rewrite Hs2. reflexivity.
  - reflexivity.
  - reflexivity.
  - subst d1. cbn. rewrite !length_app. cbn. lia.
  - cbn. by rewrite lookup_insert_eq.
Qed.

(** The route adds the access test and its own index test, and like the
    method it neither touches the shadows nor emits anything. *)
Lemma revert_route_frame req_params_id versionIndex req_user_id w :
  documentShadows (revert_route req_params_id versionIndex req_user_id w).2
    = documentShadows w ∧
  outbox (revert_route req_params_id versionIndex req_user_id w).2 = outbox w.
Proof.
  unfold revert_route, revert_route_body. run.
  destruct (db w !! req_params_id) as [document|]; [|done].
  destruct (negb (isOwner document req_user_id) && negb (isCollaborator document req_user_id));
    [done|].
  destruct versionIndex as [versionIndex|]; [|done].
  destruct (bool_decide (versionIndex < 0) || bool_decide (versionIndex >= _)); [done|].
  unfold revertToVersion.
  destruct (bool_decide (versionIndex >= 0) && bool_decide (versionIndex < _)); [|done].
  destruct (versions document !! Z.to_nat versionIndex) as [v|]; [|done].
  pose proof (addVersion_frame document (Version.content v) req_user_id
    (Some ("Reverted to version " +:+ pretty (versionIndex + 1))) w) as (Hs & _ & _ & Ho).
  destruct (addVersion _ _ _ _ w) as [[d|msg] w1]; cbn in *; done.
Qed.

(** ** save-offline-edit *)

(** The key separates (user id, document id) pairs whenever user ids have
    one common length, as the 24 hexadecimal digits of an ObjectId do. *)
Lemma app_inj_same_length (a b x y : string) :
  String.length a = String.length b → a +:+ x = b +:+ y → a = b ∧ x = y.
Proof.
  revert b. induction a as [|c a IH]; intros [|c' b]; cbn; try discriminate.
  - done.
  - intros [= Hlen] [= -> Happ]. destruct (IH b Hlen Happ) as [-> ->]. done.
Qed.

Lemma offlineKey_inj socket socket' documentId documentId' :
  String.length (id (user socket)) = String.length (id (user socket')) →
  offlineKey socket documentId = offlineKey socket' documentId' →
  id (user socket) = id (user socket') ∧ documentId = documentId'.
Proof.
  unfold offlineKey. intros Hlen Hkey.
  destruct (app_inj_same_length _ _ _ _ Hlen Hkey) as [Hid Hrest].
  split; [done|]. by injection Hrest.
Qed.


(** ** sync-offline-edits: the replay *)

Local Abbreviation by_timestamp :=
  (λ a b : @OfflineEdit Patches, oe_timestamp a ≤ oe_timestamp b).

Lemma insert_by_timestamp_perm (a : @OfflineEdit Patches) sorted :
  insert_by_timestamp a sorted ≡ₚ a :: sorted.
Proof.
  induction sorted as [|b rest IH]; cbn; [done|].
  case_bool_decide; [done|]. rewrite IH. apply Permutation_swap.
Qed.

Lemma sort_by_timestamp_perm (edits : list (@OfflineEdit Patches)) :
  sort_by_timestamp edits ≡ₚ edits.
Proof.
  induction edits as [|a edits IH]; cbn; [done|].
  rewrite insert_by_timestamp_perm. by f_equiv.
Qed.

Lemma insert_by_timestamp_sorted (a : @OfflineEdit Patches) sorted :
  StronglySorted by_timestamp sorted →
  StronglySorted by_timestamp (insert_by_timestamp a sorted).
Proof.
  induction 1 as [|b rest Hrest IH Hb]; cbn.
  - repeat constructor.
  - case_bool_decide as Hle.
    + constructor; [by constructor|].
      constructor; [lia|].
      eapply Forall_impl; [exact Hb|]. intros c Hc. cbn in Hc. lia.
    + constructor; [done|].
      rewrite insert_by_timestamp_perm. constructor; [lia|done].
Qed.

Lemma sort_by_timestamp_sorted (edits : list (@OfflineEdit Patches)) :
  StronglySorted by_timestamp (sort_by_timestamp edits).
Proof.
  induction edits as [|a edits IH]; cbn; [constructor|].
  by apply insert_by_timestamp_sorted.
Qed.

(** The loop of the handler refines the replay of the specification. *)
Lemma replay_ReplaysTo edits shadow count final count' :
  replay patch_apply edits shadow count = (final, count') →
  ∃ n, count' = (count + n)%nat ∧ ReplaysTo patch_apply shadow edits final n.
Proof.
  revert shadow count. induction edits as [|edit rest IH]; intros shadow count; cbn.
  - intros [= <- <-]. exists 0%nat. split; [lia|constructor].
  - unfold applyPatch.
    destruct (patch_apply (oe_patches edit) shadow) as [patched results] eqn:Hp.
    destruct (forallb (λ result, result) results) eqn:Hall.
    + intros (n & -> & Hn)%IH. exists (S n). split; [lia|].
      eapply replays_applied; [exact Hp| |exact Hn].
      apply Forall_forall. intros hunk Hin. rewrite forallb_forall in Hall.
      apply Hall. by apply list_elem_of_In.
    + intros (n & -> & Hn)%IH. exists n. split; [done|].
      eapply replays_skipped; [exact Hp| |exact Hn].
      apply not_true_iff_false in Hall.
      destruct (decide (false ∈ results)) as [Hin|Hout]; [done|].
      exfalso. apply Hall. apply forallb_forall. intros [|] Hin; [done|].
      exfalso. apply Hout. by apply list_elem_of_In.
Qed.

(** C5 (amended). With a non-empty buffer for (user id, document id), an
    existing document and saves that resolve, the handler tries the buffered
    bundles in ascending timestamp order, skipping a bundle of which a hunk
    fails and moving the shadow on through the bundles of which every hunk
    applies; it clears the buffer and replies offline-edits-synced with the
    number of applied bundles.  When
    that number [n] is positive, exactly one version, with the final text and
    the description "Synced n offline edits", is appended, and
    document-updated with the final text goes to every socket of the room. *)
Theorem sync_offline_edits_replays socket documentId w edits document :
  offlineEdits w !! offlineKey socket documentId = Some edits →
  edits ≠ [] →
  db w !! documentId = Some document →
  _id document = documentId →
  save_fault w (saves w) = None →
  save_fault w (S (saves w)) = None →
  let w' := on_sync_offline_edits patch_apply socket documentId w in
  let shadow := default (content document) (documentShadows w !! documentId) in
  ∃ attempted final n broadcasts,
    attempted ≡ₚ edits ∧
    StronglySorted by_timestamp attempted ∧
    ReplaysTo patch_apply shadow attempted final n ∧
    offlineEdits w' = delete (offlineKey socket documentId) (offlineEdits w) ∧
    outbox w' = outbox w ++ broadcasts ++
      [(ToSocket (socket_id socket), offline_edits_synced true n)] ∧
    ((n = 0%nat ∧ broadcasts = [] ∧ db w' = db w ∧
      documentShadows w' !! documentId = Some shadow)
     ∨
     ((0 < n)%nat ∧ ∃ document' v t,
        db w' !! documentId = Some document' ∧
        versions document' = versions document ++ [v] ∧
        Version.content v = final ∧
        Version.author v = id (user socket) ∧
        Version.changeDescription v = "Synced " +:+ pretty n +:+ " offline edits" ∧
        content document' = final ∧
        documentShadows w' !! documentId = Some final ∧
        broadcasts =
          [(ToRoom documentId,
            document_updated final (id (user socket)) (username (user socket)));
           (ToRoom documentId,
            version_created (currentVersion document') (id (user socket))
                            (username (user socket)) t)] ∧
        recipients w' (ToRoom documentId) = members w' documentId)).
Proof.
  intros Hbuf Hne Hdb Hid Hs1 Hs2. name_world w' Hw'.
  unfold on_sync_offline_edits, sync_offline_edits_body in Hw'.
  unfold try_catch, bind at 1 in Hw'. rewrite Hbuf in Hw'.
  change (default [] (Some edits)) with edits in Hw'.
  rewrite bool_decide_eq_false_2 in Hw' by (by destruct edits).
  unfold bind at 1, findById in Hw'. rewrite Hdb in Hw'.
  unfold bind at 1 in Hw'. rewrite (getDocumentShadow_found _ _ _ Hdb) in Hw'.
  unfold bind at 1 in Hw'.
  destruct (replay patch_apply (sort_by_timestamp edits)
              (default (content document) (documentShadows w !! documentId)) 0)
    as [final n] eqn:Hreplay.
  destruct (replay_ReplaysTo _ _ _ _ _ Hreplay) as (n' & Hn' & Hrel).
  cbn in Hn'. subst n'.
  exists (sort_by_timestamp edits), final, n.
  destruct n as [|n].
  - rewrite bool_decide_eq_false_2 in Hw' by lia. run_in Hw'. subst w'. run.
    exists []. split_and!; try done.
    + apply sort_by_timestamp_perm.
    + apply sort_by_timestamp_sorted.
    + by rewrite delete_insert_eq.
    + left. split_and!; try done. by rewrite lookup_insert_eq.
  - rewrite bool_decide_eq_true_2 in Hw' by lia. run_in Hw'. rewrite Hs1 in Hw'.
    run_in Hw'. rewrite addVersion_run in Hw'. run_in Hw'. rewrite Hs2 in Hw'.
    run_in Hw'. subst w'. run.
    eexists [_; _]. split_and!.
    + apply sort_by_timestamp_perm.
    + apply sort_by_timestamp_sorted.
    + done.
    + by rewrite delete_insert_eq.
    + rewrite <- !app_assoc. reflexivity.
    + right. split; [lia|]. eexists _, _, _. split_and!.
      * cbn [_id set_lastModified set_content set_currentVersion set_versions].
        rewrite Hid. apply lookup_insert_eq.
      * reflexivity.
      * reflexivity.
      * reflexivity.
      * reflexivity.
      * reflexivity.
      * by rewrite lookup_insert_eq.
      * reflexivity.
      * reflexivity.
Qed.

(** ** sync-offline-edits with nothing buffered *)

(** C10. With an empty or absent buffer for (user id, document id) the
    handler only replies offline-edits-synced {success: true, count: 0}:
    the world is otherwise the same, and since the collection is not
    consulted this holds whether or not the document exists. *)
Theorem sync_offline_edits_empty socket documentId w :
  default [] (offlineEdits w !! offlineKey socket documentId) = [] →
  let w' := on_sync_offline_edits patch_apply socket documentId w in
  w' = with_outbox
         (outbox w ++ [(ToSocket (socket_id socket), offline_edits_synced true 0)]) w ∧
  db w' = db w ∧ documentShadows w' = documentShadows w ∧
  offlineEdits w' = offlineEdits w ∧
  Forall (λ m, ∀ msg, m.2 ≠ error msg) (drop (length (outbox w)) (outbox w')).
Proof.
  intros Hempty w'. subst w'.
  unfold on_sync_offline_edits, sync_offline_edits_body. run.
  rewrite Hempty.
  change (bool_decide (length (@nil (@OfflineEdit Patches)) = 0%nat)) with true.
  cbv iota. cbn [snd outbox with_outbox db documentShadows offlineEdits].
  split_and!; try done.
  rewrite drop_app_length. by repeat constructor.
Qed.

End Properties.

(** * The properties at concrete inputs *)

Lemma document_change_patch_failure_witness :
  outbox (on_document_change exact_patch_apply alice "d1" stale_patch 0 world_cached)
  = [(ToSocket "sA", sync_required "abcX" 2)]
  ∧ documentShadows (on_document_change exact_patch_apply alice "d1" stale_patch 0 world_cached)
    = documentShadows world_cached.
Proof.
  assert (Hdb : db world_cached !! "d1" = Some doc1) by (vm_compute; reflexivity).
  assert (Hfail : false ∈ (exact_patch_apply stale_patch
            (default (content doc1) (documentShadows world_cached !! "d1"))).2)
    by (vm_compute; constructor).
  pose proof (document_change_patch_failure exact_patch_apply alice "d1" stale_patch 0
                world_cached doc1 Hdb Hfail) as (Hout & _ & _ & _ & _ & Hsame & _).
  split; [exact Hout|].
  apply Hsame. vm_compute. eexists. reflexivity.
Defined.

(** C2: a sender who is neither owner nor collaborator, and whom
    join-document turns away, has a document-change applied, persisted and
    relayed to the room; no error is sent. *)
Lemma document_change_by_stranger :
  hasAccess doc1 (id (user mallory)) = false ∧
  outbox (on_join_document mallory "d1" world_cached)
    = [(ToSocket "sM", error "Access denied")] ∧
  content <$> db (on_document_change exact_patch_apply mallory "d1" edit_patch 0 world_cached)
                !! "d1" = Some "abcXY"%string ∧
  documentShadows (on_document_change exact_patch_apply mallory "d1" edit_patch 0 world_cached)
    !! "d1" = Some "abcXY"%string ∧
  outbox (on_document_change exact_patch_apply mallory "d1" edit_patch 0 world_cached)
    = [(ToRoomExcept "d1" "sM", document_change edit_patch "u-mallory" "mallory")].
Proof. vm_compute. repeat split. Qed.

(** C3 as stated fails: 60000 ms after the last version, which is "at least
    60 seconds", no version is appended and no version-created is sent. *)
Lemma document_change_no_snapshot_at_60s :
  last (versions doc1) = Some (version_of "abc" 3000) ∧
  clock world_cached 1 - Version.timestamp (version_of "abc" 3000) = 60000 ∧
  versions <$> db (on_document_change exact_patch_apply alice "d1" edit_patch 0 world_cached)
                 !! "d1" = Some (versions doc1) ∧
  outbox (on_document_change exact_patch_apply alice "d1" edit_patch 0 world_cached)
    = [(ToRoomExcept "d1" "sA", document_change edit_patch "u-alice" "alice")].
Proof. vm_compute. repeat split. Qed.

Lemma document_change_snapshot_witness :
  ∃ document' v,
    db (on_document_change exact_patch_apply alice "d1" edit_patch 0 world_61s) !! "d1"
      = Some document' ∧
    versions document' = versions doc1 ++ [v] ∧
    Version.changeDescription v = "Auto-saved version"%string.
Proof.
  assert (Hdb : db world_61s !! "d1" = Some doc1) by (vm_compute; reflexivity).
  assert (Happly : applyPatch exact_patch_apply
            (default (content doc1) (documentShadows world_61s !! "d1")) edit_patch
            = ("abcXY"%string, true)) by (vm_compute; reflexivity).
  destruct (document_change_snapshot exact_patch_apply alice "d1" edit_patch 0 world_61s
              doc1 "abcXY" Hdb eq_refl Happly eq_refl eq_refl)
    as (document' & Hd & _ & _ & [(_ & v & t & Hv & _ & _ & Hdesc & _) | (Hnot & _)]).
  - exists document', v. auto.
  - exfalso. apply Hnot. right. exists (version_of "abc" 3000).
    split; [reflexivity | vm_compute; reflexivity].
Defined.

(** C4 as stated fails: after the rejected save the shadow holds the patched
    text, not the text it held before the patch. *)
Lemma document_change_shadow_not_rolled_back :
  documentShadows world_save_fails !! "d1" = Some "abcX"%string ∧
  outbox (on_document_change exact_patch_apply alice "d1" edit_patch 0 world_save_fails)
    = [(ToSocket "sA", error "write failed")] ∧
  documentShadows (on_document_change exact_patch_apply alice "d1" edit_patch 0 world_save_fails)
    !! "d1" = Some "abcXY"%string ∧
  documentShadows (on_document_change exact_patch_apply alice "d1" edit_patch 0 world_save_fails)
    !! "d1" ≠ documentShadows world_save_fails !! "d1".
Proof. vm_compute. split_and!; try reflexivity. intros [=]. Qed.

Lemma document_change_persist_failure_witness :
  outbox (on_document_change exact_patch_apply alice "d1" edit_patch 0 world_save_fails)
    = [(ToSocket "sA", error "write failed")] ∧
  db (on_document_change exact_patch_apply alice "d1" edit_patch 0 world_save_fails)
    = db world_save_fails.
Proof.
  assert (Hdb : db world_save_fails !! "d1" = Some doc1) by (vm_compute; reflexivity).
  assert (Happly : applyPatch exact_patch_apply
            (default (content doc1) (documentShadows world_save_fails !! "d1")) edit_patch
            = ("abcXY"%string, true)) by (vm_compute; reflexivity).
  pose proof (document_change_persist_failure exact_patch_apply alice "d1" edit_patch 0
                world_save_fails doc1 "abcXY" "write failed" Hdb Happly eq_refl)
    as (Hout & _ & Hsame & _).
  split; [exact Hout | exact Hsame].
Defined.

Lemma sync_offline_edits_replays_witness :
  ∃ attempted final n,
    attempted ≡ₚ offline_bundles ∧
    StronglySorted (λ a b, oe_timestamp a ≤ oe_timestamp b) attempted ∧
    ReplaysTo exact_patch_apply "abcX" attempted final n ∧
    offlineEdits (on_sync_offline_edits exact_patch_apply alice "d1" world_buffered)
      = delete (offlineKey alice "d1") (offlineEdits world_buffered).
Proof.
  assert (Hbuf : offlineEdits world_buffered !! offlineKey alice "d1" = Some offline_bundles)
    by (vm_compute; reflexivity).
  assert (Hne : offline_bundles ≠ []) by (intros [=]).
  assert (Hdb : db world_buffered !! "d1" = Some doc1) by (vm_compute; reflexivity).
  destruct (sync_offline_edits_replays exact_patch_apply alice "d1" world_buffered
              offline_bundles doc1 Hbuf Hne Hdb eq_refl eq_refl eq_refl)
    as (attempted & final & n & broadcasts & Hperm & Hsorted & Hreplay & Hdel & _).
  exists attempted, final, n.
  split_and!; [exact Hperm | exact Hsorted | exact Hreplay | exact Hdel].
Defined.

(** Scenario S5 with one bundle that cannot apply: the bundles stamped 100,
    200 and 300 apply in that order, the one stamped 250 is skipped. *)
Lemma sync_offline_edits_scenario :
  sort_by_timestamp offline_bundles =
    [ mkOfflineEdit [("abcX", "abcX1")] 100 "u-alice" "alice";
      mkOfflineEdit [("abcX1", "abcX12")] 200 "u-alice" "alice";
      mkOfflineEdit [("nowhere", "lost")] 250 "u-alice" "alice";
      mkOfflineEdit [("abcX12", "abcX123")] 300 "u-alice" "alice" ] ∧
  outbox (on_sync_offline_edits exact_patch_apply alice "d1" world_buffered)
    = [(ToRoom "d1", document_updated "abcX123" "u-alice" "alice");
       (ToRoom "d1", version_created 3 "u-alice" "alice" 63000);
       (ToSocket "sA", offline_edits_synced true 3)] ∧
  (Version.changeDescription <$>
     (db (on_sync_offline_edits exact_patch_apply alice "d1" world_buffered) !! "d1"
        ≫= λ document, last (versions document)))
    = Some "Synced 3 offline edits"%string.
Proof. vm_compute. repeat split. Qed.

(** C5 as stated fails: alice has four bundles buffered for a document id
    that no document has.  The request is answered with the error
    'Document not found' alone: no bundle is tried, no offline-edits-synced
    is sent, and the buffer stays as it was. *)
Lemma sync_offline_edits_missing_document :
  offlineEdits world_orphan_buffer !! offlineKey alice lost_id = Some offline_bundles ∧
  length offline_bundles = 4%nat ∧
  db world_orphan_buffer !! lost_id = None ∧
  on_sync_offline_edits exact_patch_apply alice lost_id world_orphan_buffer
  = with_outbox [(ToSocket "sA", error "Document not found")] world_orphan_buffer.
Proof. vm_compute. repeat split. Qed.

(** C7 as stated fails: after the revert of scenario S6 the content is "ab"
    while the cached shadow still is "abcX", through the method and through
    the route. *)
Lemma revert_leaves_shadow_stale :
  content <$> db (revertToVersion doc1 1 "u-bob" world_cached).2 !! "d1"
    = Some "ab"%string ∧
  documentShadows (revertToVersion doc1 1 "u-bob" world_cached).2 !! "d1"
    = Some "abcX"%string ∧
  content <$> db (revert_route "d1" (Some 1) "u-bob" world_cached).2 !! "d1"
    = Some "ab"%string ∧
  documentShadows (revert_route "d1" (Some 1) "u-bob" world_cached).2 !! "d1"
    = Some "abcX"%string ∧
  outbox (revert_route "d1" (Some 1) "u-bob" world_cached).2 = [].
Proof. vm_compute. repeat split. Qed.

Lemma revertToVersion_appends_witness :
  (∃ this',
     revertToVersion doc1 1 "u-bob" world_cached
     = (Ok this',
        with_saves 1 (with_db (<["d1" := this']> (db world_cached))
                        (with_reads 2 world_cached))) ∧
     versions this' =
       versions doc1 ++ [Version.mk "ab" 63000 "u-bob" "Reverted to version 2"] ∧
     content this' = "ab"%string) ∧
  revertToVersion doc1 3 "u-bob" world_cached = (Throw "Invalid version index", world_cached).
Proof.
  destruct (revertToVersion_appends doc1 1 "u-bob" world_cached) as [Hvalid _].
  destruct (revertToVersion_appends doc1 3 "u-bob" world_cached) as [_ Hinvalid].
  split.
  - destruct Hvalid
      as (target & v & this' & Ht & -> & Hvs & _ & Hc & _ & _ & _ & _ & _ & _ & _ & Hrun).
    { vm_compute. split; [intros [=] | reflexivity]. }
    vm_compute in Ht. injection Ht as <-.
    exists this'. split_and!; [exact Hrun | exact Hvs | exact Hc].
  - apply Hinvalid. vm_compute. intros [_ Hlt]. discriminate Hlt.
Defined.

Lemma revert_twice_same_content_witness :
  ∃ d1 w1 d2 w2,
    revertToVersion doc1 1 "u-bob" world_cached = (Ok d1, w1) ∧
    content d1 = "ab"%string ∧
    revertToVersion d1 1 "u-bob" w1 = (Ok d2, w2) ∧
    content d2 = "ab"%string ∧
    length (versions d2) = 5%nat.
Proof.
  destruct (revert_twice_same_content doc1 1 "u-bob" world_cached)
    as (target & d1 & w1 & d2 & w2 & v & Ht & Hr1 & Hc1 & Hr2 & Hc2 & _ & Hlen & _).
  - vm_compute. split; [intros [=] | reflexivity].
  - reflexivity.
  - reflexivity.
  - exists d1, w1, d2, w2.
    vm_compute in Ht. injection Ht as <-.
    split_and!; [exact Hr1 | exact Hc1 | exact Hr2 | by rewrite Hc2 | exact Hlen].
Defined.

Lemma sync_offline_edits_empty_witness :
  on_sync_offline_edits exact_patch_apply alice "d9" world_cached
  = with_outbox [(ToSocket "sA", offline_edits_synced true 0)] world_cached.
Proof.
  apply (sync_offline_edits_empty exact_patch_apply alice "d9" world_cached).
  vm_compute. reflexivity.
Defined.


(** * Further properties: presence, helpers, composition, routes *)

Section Presence_properties.

Context {Patches : Type}.
Variable patch_apply : Patches → string → string * list bool.

Implicit Types (w : @World Patches) (h : @Hub Patches) (this document : Document)
  (socket : Socket).

Local Abbreviation user_ids editors := (ActiveEditor.userId <$> editors).

(** ** The roster of active editors *)

Lemma upsertEditor_user_ids e es :
  user_ids (upsertEditor e es) =
  if decide (ActiveEditor.userId e ∈ user_ids es) then user_ids es
  else user_ids es ++ [ActiveEditor.userId e].
Proof.
  induction es as [|x es IH]; cbn.
  - rewrite decide_False by apply not_elem_of_nil. done.
  - case_bool_decide as Hx.
    + rewrite decide_True by (rewrite Hx; left). cbn. by rewrite Hx.
    + cbn. rewrite IH. destruct (decide (ActiveEditor.userId e ∈ user_ids es)) as [Hin|Hout].
      * rewrite decide_True by (by right). done.
      * rewrite decide_False; [done|]. intros [Heq|Hin]%elem_of_cons; [congruence|done].
Qed.

Lemma upsertEditor_elem e es :
  e ∈ upsertEditor e es.
Proof.
  induction es as [|x es IH]; cbn; [left|].
  case_bool_decide; [left|by right].
Qed.

Lemma upsertEditor_others e es x :
  ActiveEditor.userId x ≠ ActiveEditor.userId e →
  x ∈ upsertEditor e es ↔ x ∈ es.
Proof.
  intros Hne. induction es as [|y es IH]; cbn.
  - rewrite list_elem_of_singleton. split; [intros ->; done | by intros ?%elem_of_nil].
  - case_bool_decide as Hy.
    + rewrite !elem_of_cons. split; intros [->|?]; auto; congruence.
    + rewrite !elem_of_cons, IH. done.
Qed.

Lemma upsertEditor_NoDup e es :
  NoDup (user_ids es) → NoDup (user_ids (upsertEditor e es)).
Proof.
  intros Hnd. rewrite upsertEditor_user_ids. case_decide; [done|].
  apply NoDup_app. split_and!; [done| |apply NoDup_singleton].
  intros u Hu ->%list_elem_of_singleton. done.
Qed.

Lemma filter_upsertEditor e (es : list ActiveEditor.t) :
  filter (λ x, ActiveEditor.userId x ≠ ActiveEditor.userId e) (upsertEditor e es)
  = filter (λ x, ActiveEditor.userId x ≠ ActiveEditor.userId e) es.
Proof.
  induction es as [|y es IH]; cbn [upsertEditor].
  - by rewrite filter_cons_False by (intros H; by apply H).
  - case_bool_decide as Hy.
    + rewrite (filter_cons_False _ e) by (intros H; by apply H).
      by rewrite (filter_cons_False _ y) by (intros H; by apply H).
    + rewrite !(filter_cons_True _ y) by done. by rewrite IH.
Qed.

Lemma filter_absent_user u (es : list ActiveEditor.t) :
  u ∉ user_ids es → filter (λ x, ActiveEditor.userId x ≠ u) es = es.
Proof.
  induction es as [|y es IH]; [done|].
  rewrite fmap_cons. intros Hout. rewrite not_elem_of_cons in Hout. destruct Hout as [Hne Hout].
  rewrite filter_cons_True by done. by rewrite IH.
Qed.

(** X1. An update of a user's cursor leaves one roster entry for that user,
    holding the new cursor and selection; the entries of the other users are
    the ones there were, and a roster without repeated users stays so.  The
    content and the versions of the document are not touched. *)
Theorem updateActiveEditor_one_entry this userId username cursorPosition selection w :
  save_fault w (saves w) = None →
  ∃ updated w',
    updateActiveEditor this userId username cursorPosition selection w = (Ok updated, w') ∧
    ActiveEditor.mk userId username cursorPosition selection (clock w (reads w))
      ∈ activeEditors updated ∧
    (∀ x, ActiveEditor.userId x ≠ userId →
          x ∈ activeEditors updated ↔ x ∈ activeEditors this) ∧
    (NoDup (user_ids (activeEditors this)) → NoDup (user_ids (activeEditors updated))) ∧
    (length (activeEditors updated) ≤ S (length (activeEditors this)))%nat ∧
    content updated = content this ∧ versions updated = versions this ∧
    currentVersion updated = currentVersion this ∧
    db w' = <[_id this := updated]> (db w).
Proof.
  intros Hsave. unfold updateActiveEditor, bind, Date_now, save. cbn.
  rewrite Hsave. eexists _, _. split; [reflexivity|]. cbn.
  set (e := ActiveEditor.mk userId username cursorPosition selection (clock w (reads w))).
  split_and!; try done.
  - apply upsertEditor_elem.
  - intros x Hx. by apply (upsertEditor_others e).
  - apply upsertEditor_NoDup.
  - rewrite <- !(length_fmap ActiveEditor.userId), upsertEditor_user_ids.
    case_decide; [lia|]. rewrite length_app. cbn. lia.
Qed.

(** X2. Removing an active editor leaves no entry of that user and keeps the
    entries of all others, in their order; content and versions are not
    touched.  Removing a user who is not listed writes the document back
    unchanged. *)
Theorem removeActiveEditor_removes this userId w :
  save_fault w (saves w) = None →
  ∃ updated w',
    removeActiveEditor this userId w = (Ok updated, w') ∧
    (userId ∉ user_ids (activeEditors updated)) ∧
    (∀ x, ActiveEditor.userId x ≠ userId →
          x ∈ activeEditors updated ↔ x ∈ activeEditors this) ∧
    (activeEditors updated `sublist_of` activeEditors this) ∧
    (userId ∉ user_ids (activeEditors this) → updated = this) ∧
    content updated = content this ∧ versions updated = versions this ∧
    db w' = <[_id this := updated]> (db w).
Proof.
  intros Hsave. unfold removeActiveEditor, save. rewrite Hsave.
  eexists _, _. split; [reflexivity|]. cbn. split_and!; try done.
  - rewrite list_elem_of_fmap. intros (x & Hu & Hx%list_elem_of_filter).
    destruct Hx as [Hne _]. by apply Hne.
  - intros x Hx. rewrite list_elem_of_filter. split; [by intros [_ ?] | by intros ?].
  - apply sublist_filter.
  - intros Hout. rewrite filter_absent_user by done. by destruct this.
Qed.

(** X3. An update followed by the removal of the same user leaves the roster
    as a removal alone would: for a user who was not listed, the roster is
    back to what it was. *)
Theorem remove_after_update this userId username cursorPosition selection w :
  save_fault w (saves w) = None →
  save_fault w (S (saves w)) = None →
  ∃ final w',
    bind (updateActiveEditor this userId username cursorPosition selection)
         (λ updated, removeActiveEditor updated userId) w = (Ok final, w') ∧
    activeEditors final
      = filter (λ x, ActiveEditor.userId x ≠ userId) (activeEditors this) ∧
    (userId ∉ user_ids (activeEditors this) → activeEditors final = activeEditors this) ∧
    db w' !! _id this = Some final.
Proof.
  intros Hs1 Hs2. unfold bind, updateActiveEditor, removeActiveEditor, Date_now, save. cbn.
  rewrite Hs1. cbn. rewrite Hs2. eexists _, _. split; [reflexivity|]. cbn.
  set (e := ActiveEditor.mk userId username cursorPosition selection (clock w (reads w))).
  pose proof (filter_upsertEditor e (activeEditors this)) as Hf. cbn in Hf.
  split_and!.
  - exact Hf.
  - intros Hout. rewrite Hf. by apply filter_absent_user.
  - by rewrite lookup_insert_eq.
Qed.

End Presence_properties.

Section Helper_properties.

Context {Patches : Type}.
Variable patch_apply : Patches → string → string * list bool.

Implicit Types (w : @World Patches) (edits : list (@OfflineEdit Patches)).

(** ** The shadow cache *)

(** X4. Loading a shadow fails only when the document is neither cached nor
    stored, and then changes nothing.  When it succeeds the text is in the
    cache, the collection is as before, and loading again gives the same text
    without any further change; a cached text is returned as it is, whatever
    the collection holds. *)
Theorem getDocumentShadow_stable documentId w :
  match getDocumentShadow documentId w with
  | (Ok shadow, w1) =>
      (is_Some (documentShadows w !! documentId) ∨ is_Some (db w !! documentId)) ∧
      (∀ cached, documentShadows w !! documentId = Some cached → shadow = cached ∧ w1 = w) ∧
      documentShadows w1 !! documentId = Some shadow ∧
      db w1 = db w ∧
      getDocumentShadow documentId w1 = (Ok shadow, w1)
  | (Throw message, w1) =>
      message = "Document not found"%string ∧ w1 = w ∧
      documentShadows w !! documentId = None ∧ db w !! documentId = None
  end.
Proof.
  unfold getDocumentShadow.
  destruct (documentShadows w !! documentId) as [cached|] eqn:Hs.
  - split_and!; eauto. + by intros ? [= <-]. + by rewrite Hs.
  - destruct (db w !! documentId) as [document|] eqn:Hd; [|done].
    cbn. split_and!; eauto.
    + intros ? [=].
    + by rewrite lookup_insert_eq.
    + by rewrite lookup_insert_eq.
Qed.

(** ** The order of the replay *)

Lemma insert_by_timestamp_filter (t : Z) (a : @OfflineEdit Patches) sorted :
  filter (λ e, oe_timestamp e = t) (insert_by_timestamp a sorted)
  = filter (λ e, oe_timestamp e = t) (a :: sorted).
Proof.
  induction sorted as [|b rest IH]; cbn [insert_by_timestamp]; [done|].
  case_bool_decide as Hle; [done|].
  destruct (decide (oe_timestamp b = t)) as [Hb|Hb].
  - rewrite (filter_cons_True _ b) by done. rewrite IH.
    rewrite (filter_cons_False _ a) by lia.
    rewrite (filter_cons_False _ a) by lia.
    by rewrite (filter_cons_True _ b) by done.
  - rewrite (filter_cons_False _ b) by done. rewrite IH.
    destruct (decide (oe_timestamp a = t)) as [Ha|Ha].
    + rewrite !(filter_cons_True _ a) by done. by rewrite (filter_cons_False _ b) by done.
    + rewrite !(filter_cons_False _ a) by done. by rewrite (filter_cons_False _ b) by done.
Qed.

(** X5. The sort of the buffer is stable: the bundles that carry one and
    the same timestamp come out in the order in which they were saved. *)
Theorem sort_by_timestamp_stable (t : Z) edits :
  filter (λ e, oe_timestamp e = t) (sort_by_timestamp edits)
  = filter (λ e, oe_timestamp e = t) edits.
Proof.
  induction edits as [|a edits IH]; [done|].
  cbn [sort_by_timestamp foldr]. rewrite insert_by_timestamp_filter.
  fold (sort_by_timestamp edits).
  destruct (decide (oe_timestamp a = t)).
  - rewrite !(filter_cons_True _ a) by done. by rewrite IH.
  - rewrite !(filter_cons_False _ a) by done. by rewrite IH.
Qed.

(** X6. A buffer whose timestamps never decrease is replayed in the order
    in which it was saved: the sort leaves it as it is. *)
Theorem sort_by_timestamp_sorted_id edits :
  StronglySorted (λ a b, oe_timestamp a ≤ oe_timestamp b) edits →
  sort_by_timestamp edits = edits.
Proof.
  induction 1 as [|a edits Hsorted IH Hall]; [done|].
  cbn [sort_by_timestamp foldr]. fold (sort_by_timestamp edits). rewrite IH.
  destruct edits as [|b rest]; [done|].
  cbn [insert_by_timestamp]. apply Forall_cons in Hall as [Hab _].
  rewrite bool_decide_eq_true_2 by lia. done.
Qed.

(** X7. The replay applies at most as many bundles as the buffer holds, and
    when it applies none the shadow it returns is the shadow it started
    from. *)
Theorem replay_bounds edits shadow :
  ((replay patch_apply edits shadow 0).2 ≤ length edits)%nat ∧
  ((replay patch_apply edits shadow 0).2 = 0%nat →
   (replay patch_apply edits shadow 0).1 = shadow).
Proof.
  assert (Hgen : ∀ edits shadow count,
    (count ≤ (replay patch_apply edits shadow count).2 ≤ count + length edits)%nat ∧
    ((replay patch_apply edits shadow count).2 = count →
     (replay patch_apply edits shadow count).1 = shadow)).
  { clear. intros edits. induction edits as [|edit rest IH]; intros shadow count; cbn.
    - split; [lia|done].
    - destruct (applyPatch patch_apply shadow (oe_patches edit)) as [patched [|]].
      + destruct (IH patched (S count)) as [Hb Hs]. split; [lia|]. intros Heq. lia.
      + destruct (IH shadow count) as [Hb Hs]. split; [lia|done]. }
  destruct (Hgen edits shadow 0%nat) as [Hb Hs]. split; [lia|done].
Qed.

End Helper_properties.

Section Handler_properties.

Context {Patches : Type}.
Variable patch_apply : Patches → string → string * list bool.

Implicit Types (w : @World Patches) (h : @Hub Patches) (this document : Document)
  (socket : Socket).

Ltac runH :=
  unfold try_catchH, bindH, retH, lift, presence_emit,
         socket_emit, socket_to_emit, io_to_emit, emit, findById,
         updateDocumentShadow, Date_now, save, bind, ret, throw, try_catch;
  cbn [negb fst snd world presence_outbox
       db documentShadows offlineEdits rooms outbox clock reads save_fault saves
       with_db with_documentShadows with_offlineEdits with_rooms with_outbox
       with_reads with_saves].

(** ** Requests that are turned away *)

(** X8. join-document for a document of the collection is refused for every
    user, the owner and the collaborators included: both access tests
    compare a string with the ObjectId [socket.user.id] by [===], so the
    sender is only sent 'Access denied'.  The socket is not put into the
    room, no presence is written, no shadow is loaded and nothing is
    saved. *)
Theorem join_document_refused socket documentId document w :
  db w !! documentId = Some document →
  on_join_document socket documentId w
  = with_outbox (outbox w ++ [(ToSocket (socket_id socket), error "Access denied")]) w.
Proof.
  intros Hdb. unfold on_join_document, join_document_body. runH. rewrite Hdb.
  assert (existsb (λ collab, strictly_equals_ObjectId collab (id (user socket)))
                  (collaborators document) = false) as ->.
  { by induction (collaborators document). }
  reflexivity.
Qed.

(** ** cursor-position *)

(** X10. For an existing document whose save resolves, cursor-position
    relays exactly the sender's identity, cursor and selection to the other
    sockets of the room and records them in the roster; the sender need not
    have joined the room.  Content, versions, owner and collaborators of the
    document, the shadows, the offline buffers and the rooms are as before,
    and nothing is sent back to the sender. *)
Theorem cursor_position_relays socket documentId cursorPosition selection h document :
  db (world h) !! documentId = Some document →
  save_fault (world h) (saves (world h)) = None →
  ∃ updated,
    on_cursor_position socket documentId cursorPosition selection h
    = mkHub (with_saves (S (saves (world h)))
               (with_db (<[_id document := updated]> (db (world h)))
                  (with_reads (S (reads (world h))) (world h))))
            (presence_outbox h ++
               [(ToRoomExcept documentId (socket_id socket),
                 cursor_position (id (user socket)) (username (user socket))
                                 cursorPosition selection)]) ∧
    ActiveEditor.mk (id (user socket)) (username (user socket)) cursorPosition selection
                    (clock (world h) (reads (world h))) ∈ activeEditors updated ∧
    content updated = content document ∧ versions updated = versions document ∧
    owner updated = owner document ∧ collaborators updated = collaborators document ∧
    recipients (world h) (ToRoomExcept documentId (socket_id socket))
      = members (world h) documentId ∖ {[ socket_id socket ]}.
Proof.
  intros Hdb Hsave. unfold on_cursor_position, cursor_position_body, updateActiveEditor.
  runH. rewrite Hdb. runH. rewrite Hsave. runH.
  eexists. split; [reflexivity|]. cbn. split_and!; try done.
  apply upsertEditor_elem.
Qed.

(** ** leave-document *)

(** X11. For a document of the collection whose save resolves,
    leave-document takes the socket out of the room of the document and out
    of no other room, removes the user from the roster, sends the other
    sockets of the room editor-left with the remaining roster, and sends
    nothing to the sender; the shadows are as before. *)
Theorem leave_document_leaves socket documentId document h :
  db (world h) !! documentId = Some document →
  save_fault (world h) (saves (world h)) = None →
  let h' := on_leave_document socket documentId h in
  members (world h') documentId = members (world h) documentId ∖ {[ socket_id socket ]} ∧
  (∀ room, room ≠ documentId → members (world h') room = members (world h) room) ∧
  outbox (world h') = outbox (world h) ∧
  documentShadows (world h') = documentShadows (world h) ∧
  ∃ updated,
    presence_outbox h' = presence_outbox h ++
      [(ToRoomExcept documentId (socket_id socket),
        editor_left (id (user socket)) (username (user socket))
                    (activeEditors updated))] ∧
    activeEditors updated
      = filter (λ x, ActiveEditor.userId x ≠ id (user socket)) (activeEditors document) ∧
    db (world h') = <[_id document := updated]> (db (world h)).
Proof.
  intros Hdb Hsave. cbv zeta.
  assert (Hmembers : ∀ (rs : gmap string (gset string)) room,
    default ∅ ((if bool_decide (default ∅ (rs !! documentId) ∖ {[socket_id socket]} = ∅)
                then delete documentId rs
                else <[documentId := default ∅ (rs !! documentId) ∖ {[socket_id socket]}]> rs)
               !! room)
    = if decide (room = documentId)
      then default ∅ (rs !! documentId) ∖ {[socket_id socket]}
      else default ∅ (rs !! room)).
  { intros rs room. case_bool_decide as He; case_decide as Hr; subst.
    - by rewrite lookup_delete_eq, He.
    - by rewrite lookup_delete_ne.
    - by rewrite lookup_insert_eq.
    - by rewrite lookup_insert_ne. }
  unfold on_leave_document, leave_document_body, removeActiveEditor, socket_leave.
  runH. rewrite Hdb. runH. rewrite Hsave. runH. unfold members. cbn.
  split_and!.
  - by rewrite Hmembers, decide_True.
  - intros room Hne. by rewrite Hmembers, decide_False.
  - done.
  - done.
  - exists (set_activeEditors
              (filter (λ x, ActiveEditor.userId x ≠ id (user socket)) (activeEditors document))
              document).
    split_and!; reflexivity.
Qed.

End Handler_properties.

Section Disconnect_properties.

Context {Patches : Type}.

Implicit Types (w : @World Patches) (h : @Hub Patches) (document : Document)
  (socket : Socket).

Local Abbreviation without userId document :=
  (set_activeEditors
     (filter (λ editor, ActiveEditor.userId editor ≠ userId) (activeEditors document))
     document).

Local Abbreviation editor_left_of socket document :=
  (ToRoomExcept (_id document) (socket_id socket),
   editor_left (id (user socket)) (username (user socket))
     (filter (λ editor, ActiveEditor.userId editor ≠ id (user socket))
             (activeEditors document))).

Lemma without_absent userId document :
  userId ∉ (ActiveEditor.userId <$> activeEditors document) →
  without userId document = document.
Proof. intros Hout. rewrite filter_absent_user by done. by destruct document. Qed.

(** The loop of the disconnect handler, when no save rejects. *)
Lemma remove_from_each_run socket documents h :
  (∀ k, save_fault (world h) k = None) →
  remove_from_each socket documents h =
  (Ok tt,
   mkHub (with_saves (saves (world h) + length documents)
            (with_db (foldl (λ m document,
                               <[_id document := without (id (user socket)) document]> m)
                            (db (world h)) documents)
                     (world h)))
         (presence_outbox h ++ ((λ document, editor_left_of socket document) <$> documents))).
Proof.
  revert h. induction documents as [|document rest IH]; intros h Hfault.
  - cbn. unfold retH. destruct h as [[] ?]. cbn. by rewrite Nat.add_0_r, app_nil_r.
  - cbn [remove_from_each]. unfold bindH at 1. unfold bindH at 1.
    unfold lift, removeActiveEditor, save, presence_emit. rewrite Hfault.
    cbn [world presence_outbox].
    rewrite IH by (intros k; apply Hfault).
    cbn. unfold with_saves, with_db. cbn.
    replace (saves (world h) + S (length rest))%nat
      with (S (saves (world h) + length rest)) by lia.
    by rewrite <- app_assoc.
Qed.

Lemma foldl_insert_lookup (f : Document → Document) (m : gmap string Document)
    (documents : list Document) (k : string) :
  (∀ k d, m !! k = Some d → _id d = k) →
  (∀ d, d ∈ documents → m !! _id d = Some d) →
  match m !! k with
  | Some d =>
      (d ∈ documents →
       foldl (λ m document, <[_id document := f document]> m) m documents !! k = Some (f d)) ∧
      (d ∉ documents →
       foldl (λ m document, <[_id document := f document]> m) m documents !! k = Some d)
  | None => foldl (λ m document, <[_id document := f document]> m) m documents !! k = None
  end.
Proof.
  intros Hkeyed. induction documents as [|x rest IH] using rev_ind; intros Hstored.
  - cbn. destruct (m !! k) as [d|] eqn:Hk; [|done].
    split; [by intros ?%elem_of_nil | done].
  - rewrite foldl_app. cbn [foldl].
    assert (Hrest : ∀ d, d ∈ rest → m !! _id d = Some d).
    { intros d Hd. apply Hstored, elem_of_app. by left. }
    assert (Hx : m !! _id x = Some x).
    { apply Hstored, elem_of_app. right. by left. }
    specialize (IH Hrest).
    destruct (decide (_id x = k)) as [<-|Hne].
    + rewrite Hx. rewrite Hx in IH. rewrite lookup_insert_eq. split; [done|].
      intros Hout. exfalso. apply Hout, elem_of_app. right. by left.
    + rewrite lookup_insert_ne by done.
      destruct (m !! k) as [d|] eqn:Hk; [|done].
      destruct IH as [IHin IHout]. split.
      * intros [Hd|Hd%list_elem_of_singleton]%elem_of_app; [by apply IHin|].
        subst d. apply Hkeyed in Hk. done.
      * intros Hd. apply IHout. intros Hin. apply Hd, elem_of_app. by left.
Qed.

(** The disconnect handler, when the collection is keyed by document id and
    no save rejects. *)
Lemma on_disconnect_run socket h :
  keyed_by_id (db (world h)) →
  (∀ k, save_fault (world h) k = None) →
  on_disconnect socket h =
  let listing :=
    filter (λ document, id (user socket) ∈ ActiveEditor.userId <$> activeEditors document)
           ((map_to_list (db (world h))).*2) in
  mkHub (with_saves (saves (world h) + length listing)
           (with_db ((λ document, without (id (user socket)) document) <$> db (world h))
                    (world h)))
        (presence_outbox h ++ ((λ document, editor_left_of socket document) <$> listing)).
Proof.
  intros Hkeyed Hfault. cbv zeta.
  unfold on_disconnect, try_catchH. unfold bindH at 1.
  unfold lift at 1, find_by_activeEditor. cbn [world presence_outbox].
  rewrite remove_from_each_run
    by (cbn [world]; intros k; apply Hfault).
  cbn [snd world presence_outbox].
  set (listing := filter _ _).
  assert (Hdb : foldl (λ m document, <[_id document := without (id (user socket)) document]> m)
                  (db (world h)) listing
                = (λ document, without (id (user socket)) document) <$> db (world h)).
  { apply map_eq. intros k. rewrite lookup_fmap.
    pose proof (foldl_insert_lookup (λ document, without (id (user socket)) document)
                  (db (world h)) listing k Hkeyed) as Hlookup.
    assert (Hstored : ∀ d, d ∈ listing → db (world h) !! _id d = Some d).
    { intros d [_ Hd]%list_elem_of_filter.
      apply list_elem_of_fmap in Hd as ([k' d'] & -> & Hd).
      apply elem_of_map_to_list in Hd. cbn. by rewrite (Hkeyed _ _ Hd). }
    specialize (Hlookup Hstored).
    destruct (db (world h) !! k) as [d|] eqn:Hk; [|done].
    destruct Hlookup as [Hin Hout]. cbn.
    destruct (decide (id (user socket) ∈ ActiveEditor.userId <$> activeEditors d))
      as [Hlisted|Hnot].
    - apply Hin. apply list_elem_of_filter. split; [done|].
      apply list_elem_of_fmap. exists (k, d). split; [done|]. by apply elem_of_map_to_list.
    - rewrite Hout; [by rewrite without_absent|].
      by intros [? _]%list_elem_of_filter. }
  by rewrite Hdb.
Qed.

(** X12. When the collection is keyed by document id and no save rejects,
    the disconnect handler leaves the user in the roster of no document:
    every document is stored without the entries of that user and is
    otherwise as it was.  One editor-left, with the remaining roster, goes to
    the room of each document that listed the user; nothing is sent to the
    sender, and shadows, buffers and rooms are not touched. *)
Theorem disconnect_clears_rosters socket h :
  keyed_by_id (db (world h)) →
  (∀ k, save_fault (world h) k = None) →
  let h' := on_disconnect socket h in
  db (world h') = (λ document, without (id (user socket)) document) <$> db (world h) ∧
  (∀ k d, db (world h') !! k = Some d →
          id (user socket) ∉ (ActiveEditor.userId <$> activeEditors d)) ∧
  presence_outbox h' = presence_outbox h ++
    ((λ document, editor_left_of socket document) <$>
       filter (λ document, id (user socket) ∈ ActiveEditor.userId <$> activeEditors document)
              ((map_to_list (db (world h))).*2)) ∧
  outbox (world h') = outbox (world h) ∧
  documentShadows (world h') = documentShadows (world h) ∧
  offlineEdits (world h') = offlineEdits (world h) ∧
  rooms (world h') = rooms (world h).
Proof.
  intros Hkeyed Hfault. cbv zeta.
  rewrite (on_disconnect_run socket h Hkeyed Hfault).
  cbn [world presence_outbox db outbox documentShadows offlineEdits rooms
       with_saves with_db].
  split_and!; try done.
  intros k d. rewrite lookup_fmap.
  destruct (db (world h) !! k) as [d0|]; [|done].
  intros [= <-]. cbn. rewrite list_elem_of_fmap.
  intros (x & Hu & [Hne _]%list_elem_of_filter). by apply Hne.
Qed.

End Disconnect_properties.

Section Invariant_properties.

Context {Patches : Type}.
Variable patch_apply : Patches → string → string * list bool.

Implicit Types (w : @World Patches) (h : @Hub Patches) (document : Document)
  (socket : Socket) (m : gmap string Document).

Lemma later_state_refl d : later_state d d.
Proof. by repeat split. Qed.

Lemma later_state_trans d1 d2 d3 :
  later_state d1 d2 → later_state d2 d3 → later_state d1 d3.
Proof.
  intros (? & ? & ? & ? & ? & ?) (? & ? & ? & ? & ? & ?).
  repeat split; try congruence; [by etrans | auto].
Qed.

Lemma history_kept_refl m : history_kept m m.
Proof. intros k. destruct (m !! k) as [d|]; [|done]. exists d. by split; [|apply later_state_refl]. Qed.

Lemma history_kept_trans m1 m2 m3 :
  history_kept m1 m2 → history_kept m2 m3 → history_kept m1 m3.
Proof.
  intros H12 H23 k. specialize (H12 k). specialize (H23 k).
  destruct (m1 !! k) as [d1|].
  - destruct H12 as (d2 & Hd2 & Hl12). rewrite Hd2 in H23.
    destruct H23 as (d3 & Hd3 & Hl23). exists d3. split; [done|].
    by eapply later_state_trans.
  - by rewrite H12 in H23.
Qed.

(** Writing a later state of a stored document keeps both invariants. *)
Lemma history_kept_save m0 m d0 d :
  keyed_by_id m ∧ history_kept m0 m →
  m0 !! _id d = Some d0 →
  later_state d0 d →
  keyed_by_id (<[_id d := d]> m) ∧ history_kept m0 (<[_id d := d]> m).
Proof.
  intros [Hkeyed Hkept] Hd0 Hlater. split.
  - intros k d'. destruct (decide (_id d = k)) as [<-|Hne].
    + rewrite lookup_insert_eq. by intros [= <-].
    + rewrite lookup_insert_ne by done. apply Hkeyed.
  - intros k. destruct (decide (_id d = k)) as [<-|Hne].
    + rewrite Hd0, lookup_insert_eq. eauto.
    + rewrite lookup_insert_ne by done. apply Hkept.
Qed.

Ltac later :=
  unfold later_state, pointer_ok;
  cbn [_id title owner collaborators versions currentVersion content lastModified
       activeEditors set_content set_versions set_currentVersion set_lastModified
       set_activeEditors];
  split_and!; try done; try (by apply prefix_app_r); try (intros; done).

Ltac kept Hkeyed :=
  repeat first
    [ split; [exact Hkeyed | apply history_kept_refl]
    | eapply history_kept_save;
      [ | cbn [_id set_content set_versions set_currentVersion set_lastModified
               set_activeEditors];
          match goal with
          | H : _ !! ?k = Some ?d |- _ !! _id ?d = Some _ =>
              rewrite (Hkeyed _ _ H); exact H
          end
        | later ] ].

Ltac explore :=
  repeat (first
    [ progress
        (unfold socket_emit, socket_to_emit, io_to_emit, emit, findById,
                updateDocumentShadow, Date_now, save, bind, ret, throw, try_catch,
                try_catchH, bindH, retH, lift, presence_emit;
         cbn [negb fst snd world presence_outbox
              db documentShadows offlineEdits rooms outbox clock reads save_fault saves
              with_db with_documentShadows with_offlineEdits with_rooms with_outbox
              with_reads with_saves])
    | match goal with
      | |- context [match ?x with _ => _ end] =>
          lazymatch x with
          | context [match _ with _ => _ end] => fail
          | _ => destruct x eqn:?
          end
      end ]).

Lemma document_change_kept socket documentId patches csv w :
  keyed_by_id (db w) →
  keyed_by_id (db (on_document_change patch_apply socket documentId patches csv w)) ∧
  history_kept (db w) (db (on_document_change patch_apply socket documentId patches csv w)).
Proof.
  intros Hkeyed.
  unfold on_document_change, document_change_body, getDocumentShadow, snapshotDue,
         addVersion.
  explore; simplify_eq; kept Hkeyed.
Qed.

Lemma sync_offline_edits_kept socket documentId w :
  keyed_by_id (db w) →
  keyed_by_id (db (on_sync_offline_edits patch_apply socket documentId w)) ∧
  history_kept (db w) (db (on_sync_offline_edits patch_apply socket documentId w)).
Proof.
  intros Hkeyed.
  unfold on_sync_offline_edits, sync_offline_edits_body, getDocumentShadow, addVersion.
  explore; simplify_eq; kept Hkeyed.
Qed.

Lemma join_document_kept socket documentId w :
  keyed_by_id (db w) →
  keyed_by_id (db (on_join_document socket documentId w)) ∧
  history_kept (db w) (db (on_join_document socket documentId w)).
Proof.
  intros Hkeyed.
  unfold on_join_document, join_document_body, getDocumentShadow, updateActiveEditor.
  explore; simplify_eq; kept Hkeyed.
Qed.

Lemma save_offline_edit_kept socket documentId patches timestamp w :
  keyed_by_id (db w) →
  keyed_by_id (db (on_save_offline_edit socket documentId patches timestamp w)) ∧
  history_kept (db w) (db (on_save_offline_edit socket documentId patches timestamp w)).
Proof.
  intros Hkeyed. unfold on_save_offline_edit.
  explore; simplify_eq; kept Hkeyed.
Qed.

Lemma cursor_position_kept socket documentId cursorPosition selection h :
  keyed_by_id (db (world h)) →
  keyed_by_id (db (world (on_cursor_position socket documentId cursorPosition selection h))) ∧
  history_kept (db (world h))
    (db (world (on_cursor_position socket documentId cursorPosition selection h))).
Proof.
  intros Hkeyed.
  unfold on_cursor_position, cursor_position_body, updateActiveEditor.
  explore; simplify_eq; kept Hkeyed.
Qed.

Lemma leave_document_kept socket documentId h :
  keyed_by_id (db (world h)) →
  keyed_by_id (db (world (on_leave_document socket documentId h))) ∧
  history_kept (db (world h)) (db (world (on_leave_document socket documentId h))).
Proof.
  intros Hkeyed.
  unfold on_leave_document, leave_document_body, removeActiveEditor, socket_leave.
  explore; simplify_eq; kept Hkeyed.
Qed.

(** The loop of the disconnect handler, whatever the saves do. *)
Lemma remove_from_each_kept socket m0 documents h :
  (∀ d, d ∈ documents → m0 !! _id d = Some d) →
  keyed_by_id (db (world h)) ∧ history_kept m0 (db (world h)) →
  keyed_by_id (db (world (remove_from_each socket documents h).2)) ∧
  history_kept m0 (db (world (remove_from_each socket documents h).2)).
Proof.
  revert h. induction documents as [|document rest IH]; intros h Hstored Hinv; [done|].
  assert (Hrest : ∀ d, d ∈ rest → m0 !! _id d = Some d).
  { intros d Hd. apply Hstored. by right. }
  destruct (remove_from_each socket (document :: rest) h) as [r h'] eqn:Hrun.
  cbn [snd]. cbn [remove_from_each] in Hrun. unfold removeActiveEditor in Hrun.
  unfold bindH at 1 in Hrun. unfold bindH at 1 in Hrun. unfold lift, save in Hrun.
  destruct (save_fault (world h) (saves (world h))) as [msg|].
  - injection Hrun as <- <-. exact Hinv.
  - unfold presence_emit in Hrun. cbn [world presence_outbox] in Hrun.
    match type of Hrun with remove_from_each _ _ ?hub = _ =>
      specialize (IH hub Hrest) end.
    rewrite Hrun in IH. apply IH. cbn [world db with_saves with_db].
    eapply history_kept_save; [done| |].
    + cbn [_id set_activeEditors]. apply Hstored. by left.
    + later.
Qed.

Lemma disconnect_kept socket h :
  keyed_by_id (db (world h)) →
  keyed_by_id (db (world (on_disconnect socket h))) ∧
  history_kept (db (world h)) (db (world (on_disconnect socket h))).
Proof.
  intros Hkeyed. remember (on_disconnect socket h) as h' eqn:Hh'.
  unfold on_disconnect, try_catchH in Hh'. unfold bindH at 1 in Hh'.
  unfold lift at 1, find_by_activeEditor in Hh'. cbn [world presence_outbox] in Hh'.
  set (listing := filter _ _) in Hh'.
  pose proof (remove_from_each_kept socket (db (world h)) listing
                (mkHub (world h) (presence_outbox h))) as Hloop.
  cbn [world] in Hloop.
  assert (Hh'' : h' = (remove_from_each socket listing
                         (mkHub (world h) (presence_outbox h))).2).
  { rewrite Hh'. by destruct (remove_from_each _ _ _) as [[[]|msg] ?]. }
  rewrite Hh''. apply Hloop; [|split; [done|apply history_kept_refl]].
  intros d [_ Hd]%list_elem_of_filter.
  apply list_elem_of_fmap in Hd as ([k' d'] & -> & Hd).
  apply elem_of_map_to_list in Hd. cbn. by rewrite (Hkeyed _ _ Hd).
Qed.

Lemma handle_kept socket request h :
  keyed_by_id (db (world h)) →
  keyed_by_id (db (world (handle patch_apply socket request h))) ∧
  history_kept (db (world h)) (db (world (handle patch_apply socket request h))).
Proof.
  intros Hkeyed. destruct request; cbn [handle world].
  - by apply join_document_kept.
  - by apply document_change_kept.
  - by apply cursor_position_kept.
  - by apply save_offline_edit_kept.
  - by apply sync_offline_edits_kept.
  - by apply leave_document_kept.
  - by apply disconnect_kept.
Qed.

Lemma handle_all_kept requests h :
  keyed_by_id (db (world h)) →
  keyed_by_id (db (world (handle_all patch_apply requests h))) ∧
  history_kept (db (world h)) (db (world (handle_all patch_apply requests h))).
Proof.
  revert h. induction requests as [|[socket request] requests IH]; intros h Hkeyed.
  - split; [done|apply history_kept_refl].
  - cbn [handle_all foldl fst snd].
    destruct (handle_kept socket request h Hkeyed) as [Hk1 Hh1].
    destruct (IH _ Hk1) as [Hk2 Hh2]. split; [done|].
    by eapply history_kept_trans.
Qed.

(** X15. Whatever requests the sockets make and whatever the saves do, the
    socket handlers never create or delete a document, never change its
    title, owner or collaborators, and never drop or rewrite a version: each
    stored document keeps its versions as a prefix of the later ones.  The
    collection stays keyed by document id. *)
Theorem handlers_keep_history requests h :
  keyed_by_id (db (world h)) →
  let h' := handle_all patch_apply requests h in
  keyed_by_id (db (world h')) ∧
  ∀ k,
    match db (world h) !! k with
    | Some d =>
        ∃ d', db (world h') !! k = Some d' ∧
              title d' = title d ∧ owner d' = owner d ∧
              collaborators d' = collaborators d ∧
              versions d `prefix_of` versions d'
    | None => db (world h') !! k = None
    end.
Proof.
  intros Hkeyed. cbv zeta.
  destruct (handle_all_kept requests h Hkeyed) as [Hk Hh]. split; [done|].
  intros k. specialize (Hh k). destruct (db (world h) !! k) as [d|]; [|done].
  destruct Hh as (d' & Hd' & _ & ? & ? & ? & ? & _). eauto 10.
Qed.


End Invariant_properties.

Section Composition_properties.

Context {Patches : Type}.
Variable patch_apply : Patches → string → string * list bool.

Implicit Types (w : @World Patches) (h : @Hub Patches) (document : Document)
  (socket : Socket).

Ltac step :=
  unfold socket_emit, socket_to_emit, io_to_emit, emit, findById,
         updateDocumentShadow, Date_now, save, bind, ret, throw, try_catch;
  cbn [negb fst snd db documentShadows offlineEdits rooms outbox clock reads save_fault saves
       with_db with_documentShadows with_offlineEdits with_rooms with_outbox
       with_reads with_saves].

(** The buffer of the request is gone after a replay that ran to its end. *)
Lemma sync_offline_edits_drops_buffer socket documentId w edits document :
  offlineEdits w !! offlineKey socket documentId = Some edits →
  edits ≠ [] →
  db w !! documentId = Some document →
  save_fault w (saves w) = None →
  save_fault w (S (saves w)) = None →
  offlineEdits (on_sync_offline_edits patch_apply socket documentId w)
    !! offlineKey socket documentId = None.
Proof.
  intros Hbuf Hne Hdb Hs1 Hs2.
  unfold on_sync_offline_edits, sync_offline_edits_body.
  unfold try_catch, bind at 1. rewrite Hbuf.
  change (default [] (Some edits)) with edits.
  rewrite bool_decide_eq_false_2 by (by destruct edits).
  unfold bind at 1, findById. rewrite Hdb.
  unfold bind at 1. rewrite (getDocumentShadow_found _ _ _ Hdb).
  unfold bind at 1.
  destruct (replay patch_apply (sort_by_timestamp edits) _ 0) as [final [|n]].
  - rewrite bool_decide_eq_false_2 by lia. step. apply lookup_delete_eq.
  - rewrite bool_decide_eq_true_2 by lia. step. rewrite Hs1. step.
    rewrite addVersion_run. step. rewrite Hs2. step. apply lookup_delete_eq.
Qed.

Lemma sync_offline_edits_nothing socket documentId w :
  offlineEdits w !! offlineKey socket documentId = None →
  on_sync_offline_edits patch_apply socket documentId w
  = with_outbox (outbox w ++ [(ToSocket (socket_id socket), offline_edits_synced true 0)]) w.
Proof.
  intros Hnone. unfold on_sync_offline_edits, sync_offline_edits_body. step.
  by rewrite Hnone.
Qed.

(** X13. A replay that ran to its end has used the buffer up: asking for the
    replay again straight away is answered with count 0 and changes nothing
    else. *)
Theorem sync_offline_edits_twice socket documentId w edits document :
  offlineEdits w !! offlineKey socket documentId = Some edits →
  edits ≠ [] →
  db w !! documentId = Some document →
  save_fault w (saves w) = None →
  save_fault w (S (saves w)) = None →
  let w1 := on_sync_offline_edits patch_apply socket documentId w in
  offlineEdits w1 !! offlineKey socket documentId = None ∧
  on_sync_offline_edits patch_apply socket documentId w1
  = with_outbox (outbox w1 ++ [(ToSocket (socket_id socket), offline_edits_synced true 0)]) w1.
Proof.
  intros Hbuf Hne Hdb Hs1 Hs2 w1.
  pose proof (sync_offline_edits_drops_buffer socket documentId w edits document
                Hbuf Hne Hdb Hs1 Hs2) as Hgone.
  split; [exact Hgone|]. by apply sync_offline_edits_nothing.
Qed.

Lemma save_offline_edit_lookup socket documentId patches timestamp w k :
  offlineEdits (on_save_offline_edit socket documentId patches timestamp w) !! k =
  if decide (k = offlineKey socket documentId)
  then Some (default [] (offlineEdits w !! k) ++
               [mkOfflineEdit patches timestamp (id (user socket)) (username (user socket))])
  else offlineEdits w !! k.
Proof.
  unfold on_save_offline_edit. step.
  destruct (decide (k = offlineKey socket documentId)) as [->|Hne].
  - rewrite lookup_alter_eq.
    destruct (offlineEdits w !! offlineKey socket documentId) as [edits|] eqn:Hk; cbn.
    + by rewrite Hk.
    + by rewrite lookup_insert_eq.
  - rewrite lookup_alter_ne by done.
    destruct (offlineEdits w !! offlineKey socket documentId) as [edits|] eqn:Hk; cbn.
    + done.
    + by rewrite lookup_insert_ne.
Qed.

(** X14. Bundles saved one after the other by one user for one document
    queue up behind what was buffered, in the order of saving; the buffers
    under all other keys, the collection and the shadows are not touched,
    and each save is acknowledged. *)
Theorem saved_edits_queue_up socket documentId (bundles : list (Patches * Z)) h :
  let requests :=
    (λ bundle, (socket, SaveOfflineEdit documentId bundle.1 bundle.2)) <$> bundles in
  let h' := handle_all patch_apply requests h in
  default [] (offlineEdits (world h') !! offlineKey socket documentId)
  = default [] (offlineEdits (world h) !! offlineKey socket documentId) ++
    ((λ bundle, mkOfflineEdit bundle.1 bundle.2 (id (user socket)) (username (user socket)))
       <$> bundles) ∧
  (∀ k, k ≠ offlineKey socket documentId →
        offlineEdits (world h') !! k = offlineEdits (world h) !! k) ∧
  db (world h') = db (world h) ∧
  documentShadows (world h') = documentShadows (world h) ∧
  outbox (world h') = outbox (world h) ++
    replicate (length bundles) (ToSocket (socket_id socket), offline_edit_saved true).
Proof.
  cbv zeta. revert h. induction bundles as [|[patches timestamp] bundles IH]; intros h.
  - cbn. by rewrite !app_nil_r.
  - rewrite fmap_cons.
    change (handle_all patch_apply (?r :: ?rs) h)
      with (handle_all patch_apply rs (handle patch_apply r.1 r.2 h)).
    cbn [fst snd handle].
    destruct (IH (mkHub (on_save_offline_edit socket documentId patches timestamp (world h))
                        (presence_outbox h)))
      as (Hq & Hother & Hdb & Hsh & Hout).
    cbn [world] in *. split_and!.
    + rewrite Hq, save_offline_edit_lookup, decide_True by done. cbn.
      by rewrite <- app_assoc.
    + intros k Hk. rewrite Hother by done.
      by rewrite save_offline_edit_lookup, decide_False.
    + rewrite Hdb. unfold on_save_offline_edit. step. by case_bool_decide.
    + rewrite Hsh. unfold on_save_offline_edit. step. by case_bool_decide.
    + rewrite Hout. unfold on_save_offline_edit. step.
      rewrite <- app_assoc. cbn. by case_bool_decide.
Qed.

End Composition_properties.

Section Route_properties.

Context {Patches : Type}.
Variable patch_apply : Patches → string → string * list bool.
Variable trim : string → string.

Implicit Types (w : @World Patches) (document : Document).

Ltac route :=
  unfold findById, Date_now, save, remove, bind, ret, throw, try_catch;
  cbn [negb fst snd db documentShadows offlineEdits rooms outbox clock reads save_fault saves
       with_db with_documentShadows with_offlineEdits with_rooms with_outbox
       with_reads with_saves].

Lemma access_gate document userId :
  hasAccess document userId = true →
  negb (isOwner document userId) && negb (isCollaborator document userId) = false.
Proof. unfold hasAccess. destruct (isOwner _ _), (isCollaborator _ _); naive_solver. Qed.

Lemma no_access_gate document userId :
  hasAccess document userId = false →
  negb (isOwner document userId) && negb (isCollaborator document userId) = true.
Proof. unfold hasAccess. destruct (isOwner _ _), (isCollaborator _ _); naive_solver. Qed.

Lemma isCollaborator_elem document userId :
  isCollaborator document userId = true ↔ userId ∈ collaborators document.
Proof.
  unfold isCollaborator. rewrite existsb_exists. split.
  - intros (c & Hc%list_elem_of_In & Heq%bool_decide_eq_true). by subst.
  - intros Hin. exists userId. split; [by apply list_elem_of_In|by apply bool_decide_eq_true].
Qed.

(** ** PUT /:id *)

(** X18. For a requester with access and a save that resolves, the update
    route answers 200 with the stored document.  A body without content, or
    with the content the document already has, adds no version and keeps the
    content; a different content adds exactly one version, with that
    content, the requester as author and the given description ('Document
    updated' when it is missing or empty), and [currentVersion] points at it.
    Owner and collaborators are as before, and the shadow cache is not
    touched. *)
Theorem update_route_versions req_params_id req_body_title req_body_content
    req_body_changeDescription req_user_id w document :
  db w !! req_params_id = Some document →
  hasAccess document req_user_id = true →
  save_fault w (saves w) = None →
  ∃ updated w',
    update_route trim req_params_id req_body_title req_body_content
                 req_body_changeDescription req_user_id w
    = (Ok (mkResponse 200 (json_document updated)), w') ∧
    db w' = <[_id document := updated]> (db w) ∧
    documentShadows w' = documentShadows w ∧
    owner updated = owner document ∧ collaborators updated = collaborators document ∧
    ((req_body_content = None ∨ req_body_content = Some (content document)) →
       versions updated = versions document ∧ content updated = content document ∧
       currentVersion updated = currentVersion document) ∧
    (∀ c, req_body_content = Some c → c ≠ content document →
       ∃ v, versions updated = versions document ++ [v] ∧
            Version.content v = c ∧ Version.author v = req_user_id ∧
            Version.changeDescription v
              = or_else req_body_changeDescription "Document updated" ∧
            content updated = c ∧
            currentVersion updated = Z.of_nat (length (versions updated)) - 1).
Proof.
  intros Hdb Hacc Hsave. unfold update_route, update_route_body. route.
  rewrite Hdb, (access_gate _ _ Hacc).
  set (titled := match req_body_title with
                 | Some t => if bool_decide (t = ""%string) then document
                             else set_title (trim t) document
                 | None => document
                 end).
  assert (Htitled : _id titled = _id document ∧ content titled = content document ∧
                    versions titled = versions document ∧
                    currentVersion titled = currentVersion document ∧
                    owner titled = owner document ∧
                    collaborators titled = collaborators document).
  { subst titled. destruct req_body_title as [t|]; [case_bool_decide|]; done. }
  destruct Htitled as (Hid & Hc & Hv & Hcv & Ho & Hcs).
  destruct req_body_content as [c|].
  - case_bool_decide as Hdiff.
    + rewrite addVersion_run. route. rewrite Hsave.
      eexists _, _. split; [reflexivity|]. cbn. rewrite Hid, Hv.
      split_and!; try done.
      * intros [[=]|[= ->]]. by rewrite Hc in Hdiff.
      * intros c' [= <-] _. eexists. split_and!; reflexivity.
    + route. rewrite Hsave. eexists _, _. split; [reflexivity|]. cbn. rewrite Hid.
      split_and!; try done.
      intros c' [= <-] Hne. exfalso. apply Hne. by rewrite <- Hc.
  - route. rewrite Hsave. eexists _, _. split; [reflexivity|]. cbn. rewrite Hid.
    split_and!; try done.
Qed.

(** ** The gates of the routes *)

(** X19. A requester who is neither owner nor collaborator is answered 403
    by the update and the revert routes, and a requester who is not the
    owner is answered 403 by the add-collaborator and the delete routes,
    collaborators included; in each case nothing at all is changed. *)
Theorem routes_refuse req_params_id req_user_id w document :
  db w !! req_params_id = Some document →
  (hasAccess document req_user_id = false →
     (∀ title content changeDescription,
        update_route trim req_params_id title content changeDescription req_user_id w
        = (Ok (mkResponse 403 (json_message "Access denied" None)), w)) ∧
     (∀ versionIndex,
        revert_route req_params_id versionIndex req_user_id w
        = (Ok (mkResponse 403 (json_message "Access denied" None)), w))) ∧
  (owner document ≠ req_user_id →
     (∀ users email,
        add_collaborator_route users req_params_id email req_user_id w
        = (Ok (mkResponse 403 (json_message "Only the owner can add collaborators" None)), w)) ∧
     delete_route req_params_id req_user_id w
     = (Ok (mkResponse 403 (json_message "Only the owner can delete the document" None)), w)).
Proof.
  intros Hdb. split.
  - intros Hno%no_access_gate. split.
    + intros. unfold update_route, update_route_body. route. by rewrite Hdb, Hno.
    + intros. unfold revert_route, revert_route_body. route. by rewrite Hdb, Hno.
  - intros Hne. split.
    + intros. unfold add_collaborator_route, add_collaborator_route_body. route.
      by rewrite Hdb, bool_decide_eq_false_2.
    + unfold delete_route, delete_route_body. route.
      by rewrite Hdb, bool_decide_eq_false_2.
Qed.

(** ** Collaborators *)

(** X20. When the owner adds, by e-mail, a registered user who is not yet a
    collaborator and the save resolves, the user is appended to the
    collaborators and from then on has access; everyone who had access keeps
    it, and a list without repetitions stays without.  A user who already is
    a collaborator is answered 400 and nothing is changed. *)
Theorem add_collaborator_grants users req_params_id req_body_email w document collaborator :
  db w !! req_params_id = Some document →
  List.find (λ u, bool_decide (email u = req_body_email)) users = Some collaborator →
  (id collaborator ∉ collaborators document →
   save_fault w (saves w) = None →
   ∃ updated w',
     add_collaborator_route users req_params_id req_body_email (owner document) w
     = (Ok (mkResponse 200 (json_document updated)), w') ∧
     db w' = <[_id document := updated]> (db w) ∧
     collaborators updated = collaborators document ++ [id collaborator] ∧
     hasAccess updated (id collaborator) = true ∧
     (∀ u, hasAccess document u = true → hasAccess updated u = true) ∧
     (NoDup (collaborators document) → NoDup (collaborators updated)) ∧
     versions updated = versions document ∧ content updated = content document) ∧
  (id collaborator ∈ collaborators document →
   add_collaborator_route users req_params_id req_body_email (owner document) w
   = (Ok (mkResponse 400 (json_message "User is already a collaborator" None)), w)).
Proof.
  intros Hdb Hfind. split.
  - intros Hnew Hsave. unfold add_collaborator_route, add_collaborator_route_body. route.
    rewrite Hdb, bool_decide_eq_true_2 by done. cbn [negb]. rewrite Hfind.
    rewrite bool_decide_eq_false_2 by done. route. rewrite Hsave.
    eexists _, _. split; [reflexivity|]. cbn. split_and!; try done.
    + unfold hasAccess. apply orb_true_iff. right. apply isCollaborator_elem. cbn.
      apply elem_of_app. right. by left.
    + intros u. unfold hasAccess. rewrite !orb_true_iff. intros [Ho|Hc]; [by left|right].
      apply isCollaborator_elem. apply isCollaborator_elem in Hc. cbn.
      apply elem_of_app. by left.
    + intros Hnd. apply NoDup_app. split_and!; [done| |apply NoDup_singleton].
      intros x Hx ->%list_elem_of_singleton. done.
  - intros Hold. unfold add_collaborator_route, add_collaborator_route_body. route.
    rewrite Hdb, bool_decide_eq_true_2 by done. cbn [negb]. rewrite Hfind.
    by rewrite bool_decide_eq_true_2 by done.
Qed.

(** X21. The remove-collaborator route acts for the owner and for any
    requester who names themselves, without any other test of access.  When
    the save resolves it answers 200 with the stored document, in which the
    named user is no collaborator any more; the other collaborators keep
    their places, and the owner is unchanged.  Naming a user who is no
    collaborator stores the document as it was. *)
Theorem remove_collaborator_revokes req_params_id req_params_userId req_user_id w document :
  db w !! req_params_id = Some document →
  owner document = req_user_id ∨ req_params_userId = req_user_id →
  save_fault w (saves w) = None →
  ∃ updated w',
    remove_collaborator_route req_params_id req_params_userId req_user_id w
    = (Ok (mkResponse 200 (json_document updated)), w') ∧
    db w' = <[_id document := updated]> (db w) ∧
    isCollaborator updated req_params_userId = false ∧
    (∀ u, u ≠ req_params_userId →
          isCollaborator updated u = isCollaborator document u) ∧
    (collaborators updated `sublist_of` collaborators document) ∧
    owner updated = owner document ∧
    (req_params_userId ∉ collaborators document → updated = document).
Proof.
  intros Hdb Hgate Hsave.
  unfold remove_collaborator_route, remove_collaborator_route_body. route. rewrite Hdb.
  assert (negb (bool_decide (owner document = req_user_id))
          && negb (bool_decide (req_params_userId = req_user_id)) = false) as ->.
  { destruct Hgate as [Ho|Hu].
    - by rewrite (bool_decide_eq_true_2 _ Ho).
    - rewrite (bool_decide_eq_true_2 _ Hu). apply andb_false_r. }
  route. rewrite Hsave.
  set (updated := set_collaborators
                    (filter (λ collab, collab ≠ req_params_userId) (collaborators document))
                    document).
  exists updated. eexists. split; [reflexivity|]. split_and!; try done.
  - apply not_true_is_false. rewrite isCollaborator_elem. cbn.
    intros [Hne _]%list_elem_of_filter. done.
  - intros u Hu. apply eq_true_iff_eq. rewrite !isCollaborator_elem. cbn.
    rewrite list_elem_of_filter. split; [by intros [_ ?]|by intros ?].
  - apply sublist_filter.
  - intros Hout. subst updated.
    assert (Hsame : filter (λ collab, collab ≠ req_params_userId) (collaborators document)
                    = collaborators document).
    { clear -Hout. induction (collaborators document) as [|c cs IH]; [done|].
      rewrite not_elem_of_cons in Hout. destruct Hout as [Hne Hout].
      rewrite filter_cons_True by done. by rewrite IH. }
    rewrite Hsame. by destruct document.
Qed.

(** X22. Adding a user as collaborator and removing the same user again, with
    both saves resolving, leaves the collaborators of the document as they
    were before the two requests. *)
Theorem add_then_remove_collaborator users req_params_id req_body_email w document
    collaborator :
  keyed_by_id (db w) →
  db w !! req_params_id = Some document →
  List.find (λ u, bool_decide (email u = req_body_email)) users = Some collaborator →
  id collaborator ∉ collaborators document →
  save_fault w (saves w) = None →
  save_fault w (S (saves w)) = None →
  ∃ final w',
    bind (add_collaborator_route users req_params_id req_body_email (owner document))
         (λ _, remove_collaborator_route req_params_id (id collaborator) (owner document)) w
    = (Ok (mkResponse 200 (json_document final)), w') ∧
    collaborators final = collaborators document ∧
    db w' !! req_params_id = Some final.
Proof.
  intros Hkeyed Hdb Hfind Hnew Hs1 Hs2.
  pose proof (Hkeyed _ _ Hdb) as Hid.
  unfold add_collaborator_route, add_collaborator_route_body,
         remove_collaborator_route, remove_collaborator_route_body. route.
  rewrite Hdb, bool_decide_eq_true_2 by done. cbn [negb]. rewrite Hfind.
  rewrite bool_decide_eq_false_2 by done. route. rewrite Hs1. route.
  cbn [_id set_collaborators]. rewrite Hid, lookup_insert_eq.
  cbn [owner set_collaborators]. rewrite bool_decide_eq_true_2 by done. cbn [negb andb].
  route. rewrite Hs2.
  eexists _, _. split; [reflexivity|]. cbn. split.
  - rewrite filter_app, filter_cons_False, filter_nil, app_nil_r
      by (intros H; by apply H).
    clear -Hnew. induction (collaborators document) as [|c cs IH]; [done|].
    rewrite not_elem_of_cons in Hnew. destruct Hnew as [Hne Hout].
    rewrite filter_cons_True by done. by rewrite IH.
  - by rewrite Hid, lookup_insert_eq.
Qed.

(** ** DELETE /:id *)

(** X23. When the owner deletes a document stored under its id and the write
    resolves, the document is gone from the collection, while its cached
    shadow and the offline buffers stay as they were; a document-change for
    it afterwards is answered with 'Document not found' and nothing else. *)
Theorem delete_route_removes socket req_params_id w document patches clientShadowVersion :
  db w !! req_params_id = Some document →
  _id document = req_params_id →
  save_fault w (saves w) = None →
  ∃ w',
    delete_route req_params_id (owner document) w
    = (Ok (mkResponse 200 (json_message "Document deleted" None)), w') ∧
    db w' = delete req_params_id (db w) ∧
    documentShadows w' = documentShadows w ∧
    offlineEdits w' = offlineEdits w ∧
    on_document_change patch_apply socket req_params_id patches clientShadowVersion w'
    = with_outbox (outbox w' ++
                     [(ToSocket (socket_id socket), error "Document not found")]) w'.
Proof.
  intros Hdb Hid Hsave. unfold delete_route, delete_route_body. route.
  rewrite Hdb, bool_decide_eq_true_2 by done. cbn [negb]. rewrite Hsave.
  eexists. split; [reflexivity|]. cbn. rewrite Hid. split_and!; try done.
  unfold on_document_change, document_change_body. route. unfold emit, socket_emit, emit.
  cbn. by rewrite lookup_delete_eq.
Qed.

(** ** POST /:id/revert/:versionIndex *)

(** X24. For a requester with access, the revert route answers 400 'Invalid
    version index', changing nothing, when the index is not a number or lies
    outside the versions, so that the method never throws through the route;
    for an index inside the versions and a save that resolves it answers 200
    with the stored document, whose content is that of the chosen version
    and whose versions have grown by one. *)
Theorem revert_route_answers req_params_id versionIndex req_user_id w document :
  db w !! req_params_id = Some document →
  hasAccess document req_user_id = true →
  match versionIndex with
  | Some i =>
      (¬ (0 ≤ i < Z.of_nat (length (versions document))) →
       revert_route req_params_id versionIndex req_user_id w
       = (Ok (mkResponse 400 (json_message "Invalid version index" None)), w)) ∧
      (0 ≤ i < Z.of_nat (length (versions document)) →
       save_fault w (saves w) = None →
       ∃ target updated w',
         versions document !! Z.to_nat i = Some target ∧
         revert_route req_params_id versionIndex req_user_id w
         = (Ok (mkResponse 200 (json_document updated)), w') ∧
         content updated = Version.content target ∧
         length (versions updated) = S (length (versions document)) ∧
         db w' = <[_id document := updated]> (db w))
  | None =>
      revert_route req_params_id versionIndex req_user_id w
      = (Ok (mkResponse 400 (json_message "Invalid version index" None)), w)
  end.
Proof.
  intros Hdb Hacc. unfold revert_route, revert_route_body. route.
  rewrite Hdb, (access_gate _ _ Hacc).
  destruct versionIndex as [i|]; [|done]. split.
  - intros Hout.
    assert (bool_decide (i < 0) || bool_decide (i >= Z.of_nat (length (versions document)))
            = true) as ->; [|done].
    apply orb_true_iff. rewrite !bool_decide_eq_true. lia.
  - intros Hin Hsave.
    assert (bool_decide (i < 0) || bool_decide (i >= Z.of_nat (length (versions document)))
            = false) as ->.
    { apply orb_false_iff. rewrite !bool_decide_eq_false. lia. }
    destruct (revertToVersion_valid (Patches := Patches) document i req_user_id Hin)
      as (target & Ht & ->).
    rewrite addVersion_run. route. rewrite Hsave.
    eexists target, _, _. split_and!; [done|reflexivity|done| |done].
    cbn. rewrite length_app. cbn. lia.
Qed.

End Route_properties.

(** * The further properties at concrete inputs *)

Lemma singleton_keyed (k : string) (d : Document) :
  _id d = k → keyed_by_id {[ k := d ]}.
Proof. intros Hid k' d' [<- <-]%lookup_singleton_Some. exact Hid. Qed.

Lemma hub_live_settled :
  keyed_by_id (db (world hub_live)) ∧
  (∀ k, save_fault (world hub_live) k = None) ∧
  (∀ k d, db (world hub_live) !! k = Some d → pointer_ok d).
Proof.
  split_and!.
  - by apply singleton_keyed.
  - done.
  - intros k d Hd.
    change (db (world hub_live)) with ({[ "d1"%string := doc_live ]} : gmap string Document)
      in Hd.
    apply lookup_singleton_Some in Hd as [<- <-]. done.
Qed.

Lemma updateActiveEditor_one_entry_witness :
  ∃ updated w',
    updateActiveEditor doc_live "u-bob" "bob" 9 (9, 9) (world hub_live) = (Ok updated, w') ∧
    (length (activeEditors updated) ≤ 3)%nat.
Proof.
  destruct (updateActiveEditor_one_entry doc_live "u-bob" "bob" 9 (9, 9) (world hub_live)
              eq_refl)
    as (updated & w' & Hrun & _ & _ & _ & Hlen & _).
  exists updated, w'. split; [exact Hrun | exact Hlen].
Defined.

Lemma removeActiveEditor_removes_witness :
  ∃ updated w',
    removeActiveEditor doc_live "u-bob" (world hub_live) = (Ok updated, w') ∧
    "u-bob"%string ∉ (ActiveEditor.userId <$> activeEditors updated).
Proof.
  destruct (removeActiveEditor_removes doc_live "u-bob" (world hub_live) eq_refl)
    as (updated & w' & Hrun & Hgone & _).
  exists updated, w'. split; [exact Hrun | exact Hgone].
Defined.

Lemma remove_after_update_witness :
  ∃ final w',
    bind (updateActiveEditor doc_live "u-mallory" "mallory" 4 (4, 4))
         (λ updated, removeActiveEditor updated "u-mallory") (world hub_live)
    = (Ok final, w') ∧
    activeEditors final = roster.
Proof.
  destruct (remove_after_update doc_live "u-mallory" "mallory" 4 (4, 4) (world hub_live)
              eq_refl eq_refl)
    as (final & w' & Hrun & _ & Hback & _).
  exists final, w'. split; [exact Hrun|]. apply Hback.
  vm_compute. intros Hin. repeat (inversion Hin as [|? ? ? Hin']; subst; clear Hin;
                                  rename Hin' into Hin).
Defined.

Lemma getDocumentShadow_stable_witness :
  ∃ shadow w1,
    getDocumentShadow "d1" world_buffered = (Ok shadow, w1) ∧
    getDocumentShadow "d1" w1 = (Ok shadow, w1).
Proof.
  pose proof (getDocumentShadow_stable "d1" world_buffered) as Hstable.
  destruct (getDocumentShadow "d1" world_buffered) as [[shadow|message] w1] eqn:Hrun.
  - exists shadow, w1. split; [reflexivity|]. apply Hstable.
  - exfalso. vm_compute in Hrun. discriminate Hrun.
Defined.

Lemma sort_by_timestamp_sorted_id_witness :
  sort_by_timestamp
    [ mkOfflineEdit [("a", "ab")] 100 "u-alice" "alice";
      mkOfflineEdit [("ab", "abc")] 100 "u-alice" "alice";
      mkOfflineEdit [("abc", "abcd")] 300 "u-alice" "alice" ]
  = [ mkOfflineEdit [("a", "ab")] 100 "u-alice" "alice";
      mkOfflineEdit [("ab", "abc")] 100 "u-alice" "alice";
      mkOfflineEdit [("abc", "abcd")] 300 "u-alice" "alice" ].
Proof.
  apply sort_by_timestamp_sorted_id.
  repeat constructor; cbn; lia.
Defined.

Lemma replay_bounds_witness :
  ((replay exact_patch_apply offline_bundles "abcX" 0).2 ≤ 4)%nat.
Proof. exact (proj1 (replay_bounds exact_patch_apply offline_bundles "abcX")). Defined.

Lemma join_document_refused_witness :
  on_join_document alice "d1" world_cached
  = with_outbox [(ToSocket "sA", error "Access denied")] world_cached.
Proof.
  assert (Hdb : db world_cached !! "d1" = Some doc1) by (vm_compute; reflexivity).
  exact (join_document_refused alice "d1" doc1 world_cached Hdb).
Defined.

Lemma cursor_position_relays_witness :
  presence_outbox (on_cursor_position mallory "d1" 4 (4, 4) hub_live)
  = [(ToRoomExcept "d1" "sM", cursor_position "u-mallory" "mallory" 4 (4, 4))].
Proof.
  assert (Hdb : db (world hub_live) !! "d1" = Some doc_live) by (vm_compute; reflexivity).
  destruct (cursor_position_relays mallory "d1" 4 (4, 4) hub_live doc_live Hdb eq_refl)
    as (updated & Hrun & _).
  rewrite Hrun. reflexivity.
Defined.

Lemma leave_document_leaves_witness :
  members (world (on_leave_document alice "d1" hub_live)) "d1"
  = members (world hub_live) "d1" ∖ {[ "sA" ]}.
Proof.
  assert (Hdb : db (world hub_live) !! "d1" = Some doc_live) by (vm_compute; reflexivity).
  exact (proj1 (leave_document_leaves alice "d1" doc_live hub_live Hdb eq_refl)).
Defined.

Lemma disconnect_clears_rosters_witness :
  db (world (on_disconnect alice hub_live))
  = (λ document,
       set_activeEditors
         (filter (λ editor, ActiveEditor.userId editor ≠ "u-alice"%string)
                 (activeEditors document))
         document) <$> db (world hub_live).
Proof.
  destruct hub_live_settled as (Hkeyed & Hfault & _).
  exact (proj1 (disconnect_clears_rosters alice hub_live Hkeyed Hfault)).
Defined.

Lemma sync_offline_edits_twice_witness :
  offlineEdits (on_sync_offline_edits exact_patch_apply alice "d1" world_buffered)
    !! offlineKey alice "d1" = None.
Proof.
  assert (Hbuf : offlineEdits world_buffered !! offlineKey alice "d1" = Some offline_bundles)
    by (vm_compute; reflexivity).
  assert (Hne : offline_bundles ≠ []) by (intros [=]).
  assert (Hdb : db world_buffered !! "d1" = Some doc1) by (vm_compute; reflexivity).
  exact (proj1 (sync_offline_edits_twice exact_patch_apply alice "d1" world_buffered
                  offline_bundles doc1 Hbuf Hne Hdb eq_refl eq_refl)).
Defined.

Lemma handlers_keep_history_witness :
  keyed_by_id (db (world (handle_all exact_patch_apply busy_morning hub_live))).
Proof.
  destruct hub_live_settled as (Hkeyed & _).
  exact (proj1 (handlers_keep_history exact_patch_apply busy_morning hub_live Hkeyed)).
Defined.



Lemma update_route_versions_witness :
  ∃ updated w',
    update_route plain_trim "d1" (Some "Notes, revised"%string) (Some "abcX!"%string) None
                 "u-bob" world_cached
    = (Ok (mkResponse 200 (json_document updated)), w') ∧
    ∃ v, versions updated = versions doc1 ++ [v] ∧
         Version.changeDescription v = "Document updated"%string.
Proof.
  assert (Hdb : db world_cached !! "d1" = Some doc1) by (vm_compute; reflexivity).
  destruct (update_route_versions plain_trim "d1" (Some "Notes, revised"%string)
              (Some "abcX!"%string) None "u-bob" world_cached doc1 Hdb eq_refl eq_refl)
    as (updated & w' & Hrun & _ & _ & _ & _ & _ & Hnew).
  exists updated, w'. split; [exact Hrun|].
  destruct (Hnew "abcX!"%string eq_refl) as (v & Hv & _ & _ & Hdesc & _).
  { intros [=]. }
  exists v. split; [exact Hv | exact Hdesc].
Defined.

Lemma routes_refuse_witness :
  revert_route "d1" (Some 1) "u-mallory" world_cached
  = (Ok (mkResponse 403 (json_message "Access denied" None)), world_cached) ∧
  delete_route "d1" "u-bob" world_cached
  = (Ok (mkResponse 403 (json_message "Only the owner can delete the document" None)),
     world_cached).
Proof.
  assert (Hdb : db world_cached !! "d1" = Some doc1) by (vm_compute; reflexivity).
  split.
  - destruct (routes_refuse plain_trim "d1" "u-mallory" world_cached doc1 Hdb)
      as [Hno _].
    destruct (Hno eq_refl) as [_ Hrevert]. exact (Hrevert (Some 1)).
  - destruct (routes_refuse plain_trim "d1" "u-bob" world_cached doc1 Hdb)
      as [_ Hnotowner].
    destruct Hnotowner as [_ Hdelete]; [intros [=]|]. exact Hdelete.
Defined.

Lemma add_collaborator_grants_witness :
  ∃ updated w',
    add_collaborator_route registered "d1" "carol@example.org" "u-alice" world_cached
    = (Ok (mkResponse 200 (json_document updated)), w') ∧
    hasAccess updated "u-carol" = true.
Proof.
  assert (Hdb : db world_cached !! "d1" = Some doc1) by (vm_compute; reflexivity).
  destruct (add_collaborator_grants registered "d1" "carol@example.org" world_cached doc1
              (mkUser "u-carol" "carol" "carol@example.org") Hdb eq_refl)
    as [Hnew _].
  destruct Hnew as (updated & w' & Hrun & _ & _ & Hacc & _).
  - vm_compute. intros Hin.
    repeat (inversion Hin as [|? ? ? Hin']; subst; clear Hin; rename Hin' into Hin).
  - reflexivity.
  - exists updated, w'. split; [exact Hrun | exact Hacc].
Defined.

Lemma remove_collaborator_revokes_witness :
  ∃ updated w',
    remove_collaborator_route "d1" "u-bob" "u-alice" world_cached
    = (Ok (mkResponse 200 (json_document updated)), w') ∧
    isCollaborator updated "u-bob" = false.
Proof.
  assert (Hdb : db world_cached !! "d1" = Some doc1) by (vm_compute; reflexivity).
  destruct (remove_collaborator_revokes "d1" "u-bob" "u-alice" world_cached doc1
              Hdb (or_introl eq_refl) eq_refl)
    as (updated & w' & Hrun & _ & Hgone & _).
  exists updated, w'. split; [exact Hrun | exact Hgone].
Defined.

Lemma add_then_remove_collaborator_witness :
  ∃ final w',
    bind (add_collaborator_route registered "d1" "carol@example.org" "u-alice")
         (λ _, remove_collaborator_route "d1" "u-carol" "u-alice") world_cached
    = (Ok (mkResponse 200 (json_document final)), w') ∧
    collaborators final = ["u-bob"%string].
Proof.
  assert (Hdb : db world_cached !! "d1" = Some doc1) by (vm_compute; reflexivity).
  destruct (add_then_remove_collaborator registered "d1" "carol@example.org" world_cached doc1
              (mkUser "u-carol" "carol" "carol@example.org"))
    as (final & w' & Hrun & Hsame & _).
  - by apply singleton_keyed.
  - exact Hdb.
  - reflexivity.
  - vm_compute. intros Hin.
    repeat (inversion Hin as [|? ? ? Hin']; subst; clear Hin; rename Hin' into Hin).
  - reflexivity.
  - reflexivity.
  - exists final, w'. split; [exact Hrun | exact Hsame].
Defined.

Lemma delete_route_removes_witness :
  ∃ w',
    delete_route "d1" "u-alice" world_cached
    = (Ok (mkResponse 200 (json_message "Document deleted" None)), w') ∧
    db w' = delete "d1" (db world_cached) ∧
    documentShadows w' = documentShadows world_cached.
Proof.
  assert (Hdb : db world_cached !! "d1" = Some doc1) by (vm_compute; reflexivity).
  destruct (delete_route_removes exact_patch_apply alice "d1" world_cached doc1 edit_patch 0
              Hdb eq_refl eq_refl)
    as (w' & Hrun & Hgone & Hshadows & _).
  exists w'. split_and!; [exact Hrun | exact Hgone | exact Hshadows].
Defined.

Lemma revert_route_answers_witness :
  revert_route "d1" (Some 3) "u-bob" world_cached
  = (Ok (mkResponse 400 (json_message "Invalid version index" None)), world_cached).
Proof.
  assert (Hdb : db world_cached !! "d1" = Some doc1) by (vm_compute; reflexivity).
  destruct (revert_route_answers "d1" (Some 3) "u-bob" world_cached doc1 Hdb eq_refl)
    as [Hout _].
  apply Hout. vm_compute. intros [_ Hlt]. discriminate Hlt.
Defined.
